(** * linear-mcp: the issue handler and the GraphQL client

    A shallow embedding of the issue handler (class [IssueHandler]), of
    the client it calls ([graphql/client.ts], class [LinearGraphQLClient])
    and of the variable declarations of the mutations
    ([graphql/mutations.ts]), with the properties of the translation and
    dispatch layer proved about them.

    A handler is a computation over the log of the requests handed to the
    transport; it returns a value or throws.  Arguments and answers are
    JSON values, objects being finite maps from property names. *)

From Stdlib Require Import ZArith Ascii String List Bool Lia DecimalString.
From Stdlib Require DecimalPos.
From stdpp Require Import base option gmap strings list fin_maps.

Local Set Warnings "-register-all".
Local Open Scope Z_scope.

(** ** JavaScript values *)

(** A Number is a double.  The constructor says which kind of double:

    - [NaN];
    - [Int z]: the integer [z], of magnitude below 2^53 (every such
      integer is a double; the two zeros are one value here, as no
      operator the code applies tells them apart);
    - [Big z]: the integer [z], of magnitude 2^53 or more, itself a
      double (such doubles are all integers);
    - [Inf negative]: [Infinity] or [-Infinity];
    - [Frac negative s n]: a Number that is not an integer, given by the
      decimal that identifies it, the one [Number::toString] prints: with
      [k] the number of digits of [s], the value is [s * 10^(n - k)],
      negated when [negative] is set.  So 2.5 is [Frac false 25 1],
      -0.75 is [Frac true 75 0] and 1.5e-7 is [Frac false 15 (-6)].

    [representable_number] below says which terms stand for a Number. *)
Inductive number : Type :=
| NaN
| Int (z : Z)
| Big (z : Z)
| Inf (negative : bool)
| Frac (negative : bool) (s : Z) (n : Z).

(** The values that arrive in tool arguments and come back from the
    backend: JSON data, plus [undefined] for what is absent. *)
Inductive value : Type :=
| VUndefined
| VNull
| VBool (b : bool)
| VNum (n : number)
| VStr (s : string)
| VArr (l : list value)
| VObj (o : gmap string value).

(** An object literal or [Record<string, unknown>]. *)
Abbreviation obj := (gmap string value).

(** What is thrown: an instance of [Error] (it has a [message]), or any
    other value.  [execute] tells the two apart with [instanceof Error]. *)
Inductive thrown : Type :=
| ErrorObj (message : string)
| Thrown (v : value).

(** A computation that returns or throws. *)
Definition res (A : Type) : Type := thrown + A.

#[global] Instance res_ret : MRet res := fun A a => inr a.

#[global] Instance res_bind : MBind res := fun A B k m =>
  match m with
  | inl e => inl e
  | inr a => k a
  end.

(** ** The operators of the language the handlers use *)

(** [!!v]: the values that count as false are [false], [0], [NaN], the
    empty string, [null] and [undefined]. *)
Definition truthy (v : value) : bool :=
  match v with
  | VUndefined | VNull => false
  | VBool b => b
  | VNum NaN => false
  | VNum (Int z) => negb (z =? 0)
  | VNum (Big _) | VNum (Inf _) | VNum (Frac _ _ _) => true
  | VStr s => negb (String.eqb s "")
  | VArr _ | VObj _ => true
  end.

(** [typeof v === 'number'] ([NaN] is a number too). *)
Definition is_number (v : value) : bool :=
  match v with
  | VNum _ => true
  | _ => false
  end.

(** [Array.isArray(v)] *)
Definition isArray (v : value) : bool :=
  match v with
  | VArr _ => true
  | _ => false
  end.

(** The decimal numeral of an integer, with a minus sign when negative:
    what [Number::toString] prints for an integer below 2^53 in
    magnitude. *)
Definition decimal (z : Z) : string := NilZero.string_of_int (Z.to_int z).

Definition two53 : Z := 9007199254740992.

(** The double nearest to the non-negative integer [z], ties to the even
    significand (of 53 bits); [None] when it is beyond the largest double,
    where the conversion gives [Infinity]. *)
Definition round_double (z : Z) : option Z :=
  let e := Z.log2 z - 52 in
  if e <=? 0 then Some z
  else
    let q := Z.shiftr z e in
    let r := z - Z.shiftl q e in
    let half := Z.shiftl 1 (e - 1) in
    let q := if (half <? r) || ((r =? half) && Z.odd q) then q + 1 else q in
    let x := Z.shiftl q e in
    if Z.shiftl 1 1024 <=? x then None else Some x.

Definition rounds_to (x v : Z) : bool :=
  match round_double v with
  | Some y => y =? x
  | None => false
  end.

(** The integer Number a non-empty run of digits of value [z] denotes. *)
Definition to_number (z : Z) : number :=
  if Z.abs z <? two53 then Int z
  else
    match round_double (Z.abs z) with
    | Some x => Big (if z <? 0 then - x else x)
    | None => Inf (z <? 0)
    end.

Fixpoint zeros (n : nat) : string :=
  match n with
  | O => EmptyString
  | S n => String "0" (zeros n)
  end.

(** [Number::toString] on a double [x] of 2^53 or more.  It prints the
    fewest digits [s] that still identify [x]: with [d] the number of
    digits of [x], the [k]-digit candidates are the two multiples of
    [10^(d - k)] around [x]; one that rounds to [x] is taken, the one
    nearer to [x] if both do. *)
Definition candidate (x : Z) (d k : nat) : option Z :=
  let p := 10 ^ Z.of_nat (d - k) in
  let lo := x / p in
  let hi := lo + 1 in
  let fits s := (s <? 10 ^ Z.of_nat k) && rounds_to x (s * p) in
  match fits lo, fits hi with
  | true, true =>
      let a := x - lo * p in
      let b := hi * p - x in
      Some (if a <? b then lo else if b <? a then hi
            else if Z.even lo then lo else hi)
  | true, false => Some lo
  | false, true => Some hi
  | false, false => None
  end.

Fixpoint shortest (x : Z) (d k fuel : nat) : Z * nat :=
  match fuel with
  | O => (x, d)
  | S fuel =>
      match candidate x d k with
      | Some s => (s, k)
      | None => shortest x d (S k) fuel
      end
  end.

(** The digits [s], their number [k] and the exponent [n] with
    [x = s * 10^(n - k)] as far as a double can tell. *)
Definition shortest_digits (x : Z) : Z * nat * nat :=
  let d := String.length (decimal x) in
  if rounds_to x (10 ^ Z.of_nat d) then (1, 1%nat, S d)
  else let '(s, k) := shortest x d 1 d in (s, k, d).

(** The digits with a point after the first, when there are several. *)
Definition mantissa (ds : string) : string :=
  match ds with
  | String c (String _ _ as r) => String c ("." +:+ r)
  | _ => ds
  end.

(** The digits are padded with zeros up to 21 digits; from 10^21 on the
    exponent form is used. *)
Definition big_text (x : Z) : string :=
  let '(s, k, n) := shortest_digits x in
  if (n <=? 21)%nat then decimal s +:+ zeros (n - k)
  else mantissa (decimal s) +:+ "e+" +:+ decimal (Z.of_nat (n - 1)).

(** [Number::toString] on the positive fraction [s * 10^(n - k)]: plain
    digits with a point down to 10^-6, the exponent form below. *)
Definition frac_text (s n : Z) : string :=
  let ds := decimal s in
  if 0 <? n then
    String.substring 0 (Z.to_nat n) ds +:+ "." +:+
    String.substring (Z.to_nat n) (String.length ds - Z.to_nat n) ds
  else if -6 <? n then "0." +:+ zeros (Z.to_nat (- n)) +:+ ds
  else mantissa ds +:+ "e-" +:+ decimal (1 - n).

(** The largest integer not above the fraction. *)
Definition frac_floor (negative : bool) (s n : Z) : Z :=
  let k := Z.of_nat (String.length (decimal s)) in
  let whole := if 0 <? n then s / 10 ^ (k - n) else 0 in
  if negative then - whole - 1 else whole.

(** [Number::toString] *)
Definition number_text (n : number) : string :=
  match n with
  | NaN => "NaN"
  | Int z => decimal z
  | Big z => if z <? 0 then "-" +:+ big_text (- z) else big_text z
  | Inf negative => if negative then "-Infinity" else "Infinity"
  | Frac negative s n =>
      if negative then "-" +:+ frac_text s n else frac_text s n
  end.

(** The terms that stand for a Number: an [Int] is below 2^53 in
    magnitude, a [Big] is a double of 2^53 or more, the digits of a
    [Frac] are at most 17, do not end in 0, and some of them come after
    the point. *)
Definition representable_number (n : number) : bool :=
  match n with
  | NaN | Inf _ => true
  | Int z => Z.abs z <? two53
  | Big z => (two53 <=? Z.abs z) && rounds_to (Z.abs z) (Z.abs z)
  | Frac _ s n =>
      (0 <? s) && (s <? 10 ^ 17) && negb (s mod 10 =? 0)
      && (n <? Z.of_nat (String.length (decimal s)))
  end.

(** [String(v)], also what a template literal does to [v].  An array joins
    its elements with commas, [null] and [undefined] elements giving the
    empty string; an object is a plain data object, which inherits
    [Object.prototype.toString] (see [representable] below). *)
Fixpoint js_String (v : value) : string :=
  match v with
  | VUndefined => "undefined"
  | VNull => "null"
  | VBool true => "true"
  | VBool false => "false"
  | VNum n => number_text n
  | VStr s => s
  | VArr l =>
      (fix join (l : list value) : string :=
         match l with
         | [] => ""
         | x :: r =>
             let sx := match x with
                       | VUndefined | VNull => ""
                       | _ => js_String x
                       end in
             match r with
             | [] => sx
             | _ :: _ => sx +:+ "," +:+ join r
             end
         end) l
  | VObj _ => "[object Object]"
  end.

(** The [TypeError] of a property read on [undefined] or [null], with
    Node's wording.  A [TypeError] is an instance of [Error]. *)
Definition TypeError_read (base : value) (k : string) : thrown :=
  ErrorObj ("Cannot read properties of " +:+ js_String base +:+
            " (reading '" +:+ k +:+ "')").

(** [o[k]] on an object literal: an absent key reads as [undefined]. *)
Definition field (o : obj) (k : string) : value := default VUndefined (o !! k).

(** [v.k] on a base that is neither [undefined] nor [null], for the
    property names the code reads (data fields and [length]): the field of
    an object, the [length] of an array or of a string (of one-byte
    characters), [undefined] otherwise. *)
Definition prop (v : value) (k : string) : value :=
  match v with
  | VObj o => field o k
  | VArr l =>
      if String.eqb k "length" then VNum (Int (Z.of_nat (List.length l)))
      else VUndefined
  | VStr s =>
      if String.eqb k "length" then VNum (Int (Z.of_nat (String.length s)))
      else VUndefined
  | _ => VUndefined
  end.

Definition nullish (v : value) : bool :=
  match v with
  | VUndefined | VNull => true
  | _ => false
  end.

(** [v.k]: a [TypeError] when [v] is [undefined] or [null]. *)
Definition get (v : value) (k : string) : res value :=
  if nullish v then inl (TypeError_read v k) else inr (prop v k).

(** [v?.k] *)
Definition get_opt (v : value) (k : string) : value :=
  if nullish v then VUndefined else prop v k.

(** [a || b] *)
Definition js_or (a b : value) : value := if truthy a then a else b.

(** ** [parseInt(s, 10)] *)

Definition is_digit (c : ascii) : bool :=
  ((48 <=? nat_of_ascii c) && (nat_of_ascii c <=? 57))%nat.

Definition is_upper (c : ascii) : bool :=
  ((65 <=? nat_of_ascii c) && (nat_of_ascii c <=? 90))%nat.

(** A string is given by the bytes of its UTF-8 encoding; the characters
    the code looks at (digits, signs, the letters A-Z, the hyphen) are one
    byte each. *)

(** The one-byte white space: TAB, LF, VT, FF, CR and SP. *)
Definition is_space (c : ascii) : bool :=
  ((9 <=? nat_of_ascii c) && (nat_of_ascii c <=? 13) || (nat_of_ascii c =? 32))%nat.

(** The white space of two bytes: U+00A0. *)
Definition white2 (c1 c2 : ascii) : bool :=
  ((nat_of_ascii c1 =? 194) && (nat_of_ascii c2 =? 160))%nat.

(** The white space of three bytes: U+1680, U+2000 to U+200A, the line
    terminators U+2028 and U+2029, U+202F, U+205F, U+3000 and U+FEFF. *)
Definition white3 (c1 c2 c3 : ascii) : bool :=
  let n1 := nat_of_ascii c1 in
  let n2 := nat_of_ascii c2 in
  let n3 := nat_of_ascii c3 in
  ((n1 =? 225) && ((n2 =? 154) && (n3 =? 128))
   || (n1 =? 226) && ((n2 =? 128) && ((128 <=? n3) && (n3 <=? 138)
                                      || (n3 =? 168) || (n3 =? 169)
                                      || (n3 =? 175))
                      || (n2 =? 129) && (n3 =? 159))
   || (n1 =? 227) && ((n2 =? 128) && (n3 =? 128))
   || (n1 =? 239) && ((n2 =? 187) && (n3 =? 191)))%nat.

(** The string without the white space and line terminators it starts
    with. *)
Fixpoint skip_white (s : string) : string :=
  match s with
  | EmptyString => s
  | String c1 r1 =>
      if is_space c1 then skip_white r1
      else
        match r1 with
        | EmptyString => s
        | String c2 r2 =>
            if white2 c1 c2 then skip_white r2
            else
              match r2 with
              | EmptyString => s
              | String c3 r3 => if white3 c1 c2 c3 then skip_white r3 else s
              end
        end
  end.

Definition digit_value (c : ascii) : Z := Z.of_nat (nat_of_ascii c) - 48.

(** The longest prefix of [s] whose characters satisfy [p], and the rest. *)
Fixpoint span (p : ascii -> bool) (s : string) : string * string :=
  match s with
  | EmptyString => (EmptyString, EmptyString)
  | String c r =>
      if p c then let '(a, b) := span p r in (String c a, b)
      else (EmptyString, s)
  end.

Fixpoint digits_from (acc : Z) (s : string) : Z :=
  match s with
  | EmptyString => acc
  | String c r => digits_from (10 * acc + digit_value c) r
  end.

(** The integer a string of decimal digits denotes. *)
Definition digits_value (s : string) : Z := digits_from 0 s.

(** [parseInt(s, 10)]: leading white space is skipped, one sign is read,
    then the longest run of decimal digits; [NaN] when that run is empty.
    What follows the digits is ignored.  The answer is the double nearest
    to the integer the digits denote. *)
Definition parseInt10 (s : string) : number :=
  let s1 := skip_white s in
  let '(sign, s2) :=
    match s1 with
    | String "-" r => (-1, r)
    | String "+" r => (1, r)
    | _ => (1, s1)
    end in
  match fst (span is_digit s2) with
  | EmptyString => NaN
  | ds => to_number (sign * digits_value ds)
  end.

(** [isNaN(n)] on a Number. *)
Definition isNaN (n : number) : bool :=
  match n with
  | NaN => true
  | _ => false
  end.

(** [n < k] and [n > k] on a Number [n] and an integer [k]: false when
    [n] is [NaN]. *)
Definition num_lt (n : number) (k : Z) : bool :=
  match n with
  | NaN => false
  | Int z | Big z => z <? k
  | Inf negative => negative
  | Frac negative s e => frac_floor negative s e <? k
  end.

Definition num_gt (n : number) (k : Z) : bool :=
  match n with
  | NaN => false
  | Int z | Big z => k <? z
  | Inf negative => negb negative
  | Frac negative s e => k <=? frac_floor negative s e
  end.

(** [Number.isInteger(n)] *)
Definition is_integer (n : number) : bool :=
  match n with
  | Int _ | Big _ => true
  | _ => false
  end.

(** The terms that stand for a JavaScript value that [String] converts:
    the Numbers in them are representable, and an object has no field
    named [toString] (as data it could not be called, and [String] would
    raise). *)
Fixpoint representable (v : value) : bool :=
  match v with
  | VNum n => representable_number n
  | VArr l =>
      (fix all (l : list value) : bool :=
         match l with
         | [] => true
         | x :: r => representable x && all r
         end) l
  | VObj o =>
      match o !! "toString" with
      | None => true
      | Some _ => false
      end
  | _ => true
  end.


(** ** The backend operations ([graphql/mutations.ts]) *)

Inductive mutation : Type :=
| CREATE_ISSUE_MUTATION
| CREATE_ISSUES_MUTATION
| CREATE_PROJECT
| CREATE_BATCH_ISSUES
| UPDATE_ISSUE_MUTATION
| UPDATE_ISSUES_MUTATION
| DELETE_ISSUE_MUTATION
| DELETE_ISSUES_MUTATION
| CREATE_ISSUE_LABELS.

(** The variables each mutation declares in its header, e.g.
    [mutation UpdateIssue($id: String!, $input: IssueUpdateInput!)]. *)
Definition declared_variables (m : mutation) : gset string :=
  match m with
  | CREATE_ISSUE_MUTATION => {["input"]}
  | CREATE_ISSUES_MUTATION => {["input"]}
  | CREATE_PROJECT => {["input"]}
  | CREATE_BATCH_ISSUES => {["input"]}
  | UPDATE_ISSUE_MUTATION => {["id"; "input"]}
  | UPDATE_ISSUES_MUTATION => {["input"]}
  | DELETE_ISSUE_MUTATION => {["id"]}
  | DELETE_ISSUES_MUTATION => {["ids"]}
  | CREATE_ISSUE_LABELS => {["labels"]}
  end.

(** The root field each mutation selects, under which the backend answers. *)
Definition result_field (m : mutation) : string :=
  match m with
  | CREATE_ISSUE_MUTATION => "issueCreate"
  | CREATE_ISSUES_MUTATION => "issueCreate"
  | CREATE_PROJECT => "projectCreate"
  | CREATE_BATCH_ISSUES => "issueBatchCreate"
  | UPDATE_ISSUE_MUTATION => "issueUpdate"
  | UPDATE_ISSUES_MUTATION => "issueBatchUpdate"
  | DELETE_ISSUE_MUTATION => "issueDelete"
  | DELETE_ISSUES_MUTATION => "issueDelete"
  | CREATE_ISSUE_LABELS => "issueLabelCreate"
  end.

(** A document handed to [execute]: one of the mutations above, or the
    search query of [graphql/queries.ts]. *)
Inductive document : Type :=
| Mutation (m : mutation)
| SEARCH_ISSUES_QUERY.

Coercion Mutation : mutation >-> document.

(** One call of the transport: [rawRequest(body, variables)]. *)
Record request : Type := Request {
  req_document : document;
  req_variables : value
}.

(** The names a request binds: the keys of its variables object. *)
Definition bound_variables (r : request) : gset string :=
  match req_variables r with
  | VObj o => dom o
  | _ => ∅
  end.

(** ** Computations that call the backend *)

(** A computation over the log of the requests made so far; the log keeps
    whatever was sent, also when the computation throws. *)
Definition M (A : Type) : Type := list request -> res A * list request.

#[global] Instance M_ret : MRet M := fun A a log => (inr a, log).

#[global] Instance M_bind : MBind M := fun A B k m log =>
  match m log with
  | (inl e, log') => (inl e, log')
  | (inr a, log') => k a log'
  end.

Definition throw {A} (e : thrown) : M A := fun log => (inl e, log).

Definition lift {A} (r : res A) : M A := fun log => (r, log).

(** [try { m } catch (error) { h error }] *)
Definition try_catch {A} (m : M A) (h : thrown -> M A) : M A := fun log =>
  match m log with
  | (inl e, log') => h e log'
  | (inr a, log') => (inr a, log')
  end.

(** Running a computation from an empty log. *)
Definition run {A} (m : M A) : res A * list request := m [].

(** ** [LinearGraphQLClient] ([graphql/client.ts]) *)

Section Client.

(** The transport, [linearClient.client.rawRequest]: what it answers to a
    request ([response.data], or what it rejects with) may depend on the
    requests it has served before. *)
Variable rawRequest : list request -> request -> res value.

Definition send (r : request) : M value := fun log =>
  (rawRequest log r, log ++ [r]).

Definition execute (doc : document) (variables : value) : M value :=
  try_catch (send (Request doc variables))
    (fun error =>
       match error with
       | ErrorObj message =>
           throw (ErrorObj ("GraphQL operation failed: " +:+ message))
       | _ => throw error
       end).

Definition createIssue (input : value) : M value :=
  execute CREATE_ISSUE_MUTATION (VObj {[ "input" := input ]}).

Definition createIssues (issues : value) : M value :=
  execute CREATE_BATCH_ISSUES
    (VObj {[ "input" := VObj {[ "issues" := issues ]} ]}).

Definition createProject (input : value) : M value :=
  execute CREATE_PROJECT (VObj {[ "input" := input ]}).

Definition createBatchIssues (issues : value) : M value :=
  execute CREATE_BATCH_ISSUES
    (VObj {[ "input" := VObj {[ "issues" := issues ]} ]}).

(** [{ ...issue, projectId: id }] *)
Definition with_projectId (id : value) (issue : obj) : obj :=
  <["projectId" := id]> issue.

(** [issues.map(issue => ({ ...issue, projectId:
    projectResult.projectCreate.project.id }))]: the path is read once per
    issue, so it is not read at all for an empty list. *)
Fixpoint issuesWithProject (projectResult : value) (issues : list obj)
  : res (list obj) :=
  match issues with
  | [] => mret []
  | issue :: rest =>
      projectCreate ← get projectResult "projectCreate";
      project ← get projectCreate "project";
      id ← get project "id";
      rest' ← issuesWithProject projectResult rest;
      mret (with_projectId id issue :: rest')
  end.

Definition createProjectWithIssues (projectInput : value) (issues : list obj)
  : M value :=
  projectResult ← createProject projectInput;
  projectCreate ← lift (get projectResult "projectCreate");
  success ← lift (get projectCreate "success");
  if negb (truthy success) then throw (ErrorObj "Failed to create project")
  else
    withProject ← lift (issuesWithProject projectResult issues);
    issuesResult ← createBatchIssues (VArr (VObj <$> withProject));
    issueBatchCreate ← lift (get issuesResult "issueBatchCreate");
    success' ← lift (get issueBatchCreate "success");
    if negb (truthy success') then throw (ErrorObj "Failed to create issues")
    else
      mret (VObj (<["projectCreate" := projectCreate]>
                 (<["issueBatchCreate" := issueBatchCreate]> ∅))).

Definition updateIssue (id input : value) : M value :=
  execute UPDATE_ISSUE_MUTATION
    (VObj (<["id" := id]> (<["input" := input]> ∅))).

Definition updateIssues (ids input : value) : M value :=
  execute UPDATE_ISSUES_MUTATION
    (VObj (<["ids" := ids]> (<["input" := input]> ∅))).

Definition createIssueLabels (labels : value) : M value :=
  execute CREATE_ISSUE_LABELS (VObj {[ "labels" := labels ]}).

(** A parameter with a default takes it when the argument is
    [undefined]. *)
Definition or_default (v d : value) : value :=
  match v with
  | VUndefined => d
  | _ => v
  end.

Definition searchIssues (filter first after orderBy : value) : M value :=
  execute SEARCH_ISSUES_QUERY
    (VObj (<["filter" := filter]>
          (<["first" := or_default first (VNum (Int 50))]>
          (<["after" := after]>
          (<["orderBy" := or_default orderBy (VStr "updatedAt")]> ∅))))).

Definition deleteIssue (id : value) : M value :=
  execute DELETE_ISSUE_MUTATION (VObj {[ "id" := id ]}).

Definition deleteIssues (ids : value) : M value :=
  execute DELETE_ISSUES_MUTATION (VObj {[ "ids" := ids ]}).

End Client.

(** ** [IssueHandler] ([features/issues/handlers/issue.handler.ts]) *)

(** [processedArgs.estimate], lines 42-50: an estimate that is there is
    replaced by [parseInt(String(estimate), 10)], and deleted when that is
    [NaN]. *)
Definition process_estimate (processedArgs : obj) : obj :=
  match field processedArgs "estimate" with
  | VUndefined => processedArgs
  | estimate =>
      let n := parseInt10 (js_String estimate) in
      let processedArgs := <["estimate" := VNum n]> processedArgs in
      if isNaN n then delete "estimate" processedArgs else processedArgs
  end.

(** [processedArgs.priority], lines 52-60: a priority that is there is
    replaced by [parseInt(String(priority), 10)], and by [0] when that is
    [NaN], below 0 or above 4. *)
Definition process_priority (processedArgs : obj) : obj :=
  match field processedArgs "priority" with
  | VUndefined => processedArgs
  | priority =>
      let n := parseInt10 (js_String priority) in
      let processedArgs := <["priority" := VNum n]> processedArgs in
      if isNaN n || num_lt n 0 || num_gt n 4
      then <["priority" := VNum (Int 0)]> processedArgs
      else processedArgs
  end.

(** The payload [handleCreateIssue] hands to [client.createIssue]: a copy
    of the arguments with estimate, then priority, processed. *)
Definition processedArgs (args : obj) : obj :=
  process_priority (process_estimate args).

(** [query.match(/^[A-Z]+-(\d+)$/)]: the digit group when the whole of
    [query] is one or more capital letters, a hyphen, and one or more
    digits. *)
Definition match_identifier (query : string) : option string :=
  match span is_upper query with
  | (String _ _, String "-" ds) =>
      match span is_digit ds with
      | (String _ _, EmptyString) => Some ds
      | _ => None
      end
  | _ => None
  end.

(** [extractIssueNumber], lines 205-211. *)
Definition extractIssueNumber (query : string) : value :=
  match match_identifier query with
  | Some group =>
      if truthy (VStr group) then VNum (parseInt10 group) else VNull
  | None => VNull
  end.

(** The [TypeError] of calling a method a value does not have. *)
Definition TypeError_call (what : string) : thrown :=
  ErrorObj (what +:+ " is not a function").

(** The filter [handleSearchIssues] assembles, lines 162-187.  Only a
    string has a [match] method: a query that is truthy and not a string
    makes [extractIssueNumber] throw. *)
Definition search_filter (args : obj) : res obj :=
  let filter : obj := ∅ in
  filter ←
    (if truthy (field args "query") then
       match field args "query" with
       | VStr query =>
           mret (<["or" :=
                    VArr [VObj {[ "title" :=
                                   VObj {[ "containsIgnoreCase" := VStr query ]} ]};
                          VObj {[ "number" :=
                                   VObj {[ "eq" := extractIssueNumber query ]} ]}]]>
                   filter)
       | _ => inl (TypeError_call "query.match")
       end
     else mret filter);
  let eq := get_opt (get_opt (get_opt (field args "filter") "project") "id") "eq" in
  let filter :=
    if truthy eq
    then <["project" := VObj {[ "id" := VObj {[ "eq" := eq ]} ]}]> filter
    else filter in
  let filter :=
    if truthy (field args "teamIds")
    then <["team" := VObj {[ "id" := VObj {[ "in" := field args "teamIds" ]} ]}]> filter
    else filter in
  let filter :=
    if truthy (field args "assigneeIds")
    then <["assignee" :=
            VObj {[ "id" := VObj {[ "in" := field args "assigneeIds" ]} ]}]> filter
    else filter in
  let filter :=
    if truthy (field args "states")
    then <["state" := VObj {[ "name" := VObj {[ "in" := field args "states" ]} ]}]> filter
    else filter in
  let filter :=
    if is_number (field args "priority")
    then <["priority" := VObj {[ "eq" := field args "priority" ]}]> filter
    else filter in
  mret filter.

Definition nl : string := String (ascii_of_nat 10) EmptyString.

Section IssueHandler.

Variable rawRequest : list request -> request -> res value.

(** What the handler inherits from [BaseHandler]
    ([core/handlers/base.handler.ts]): the session check, the check of
    required parameters, the two ways to wrap a result, and the error
    raised in place of a caught one. *)
Variable verifyAuth : res unit.
Variable validateRequiredParams : obj -> list string -> res unit.
Variable createResponse : string -> value.
Variable createJsonResponse : value -> value.
Variable handleError : thrown -> string -> thrown.

Definition handleCreateIssue (args : obj) : M value :=
  try_catch
    (_ ← lift verifyAuth;
     _ ← lift (validateRequiredParams args ["title"; "description"; "teamId"]);
     result ← createIssue rawRequest (VObj (processedArgs args));
     issueCreate ← lift (get result "issueCreate");
     success ← lift (get issueCreate "success");
     if negb (truthy success) then throw (ErrorObj "Failed to create issue")
     else
       issue ← lift (get issueCreate "issue");
       if negb (truthy issue) then throw (ErrorObj "Failed to create issue")
       else
         identifier ← lift (get issue "identifier");
         title ← lift (get issue "title");
         url ← lift (get issue "url");
         project ← lift (get issue "project");
         name ← (if truthy project then lift (get project "name")
                 else mret (VStr "None"));
         mret (createResponse
                 ("Successfully created issue" +:+ nl +:+
                  "Issue: " +:+ js_String identifier +:+ nl +:+
                  "Title: " +:+ js_String title +:+ nl +:+
                  "URL: " +:+ js_String url +:+ nl +:+
                  "Project: " +:+ js_String name)))
    (fun error => throw (handleError error "create issue")).

Definition handleBulkUpdateIssues (args : obj) : M value :=
  try_catch
    (_ ← lift verifyAuth;
     _ ← lift (validateRequiredParams args ["issueIds"; "update"]);
     match field args "issueIds" with
     | VArr issueIds =>
         if (List.length issueIds =? 1)%nat then
           result ← updateIssue rawRequest
                      (default VUndefined (issueIds !! 0%nat))
                      (field args "update");
           issueUpdate ← lift (get result "issueUpdate");
           if negb (truthy (get_opt issueUpdate "success"))
           then throw (ErrorObj "Failed to update issue")
           else mret (createResponse "Successfully updated issue")
         else
           result ← updateIssues rawRequest (VArr issueIds)
                      (field args "update");
           issueBatchUpdate ← lift (get result "issueBatchUpdate");
           if negb (truthy (get_opt issueBatchUpdate "success"))
           then throw (ErrorObj "Failed to update issues")
           else
             issues ← lift (get issueBatchUpdate "issues");
             updatedCount ← lift (get issues "length");
             mret (createResponse
                     ("Successfully updated " +:+ js_String updatedCount +:+
                      " issues"))
     | _ => throw (ErrorObj "IssueIds parameter must be an array")
     end)
    (fun error => throw (handleError error "update issues")).

Definition handleSearchIssues (args : obj) : M value :=
  try_catch
    (_ ← lift verifyAuth;
     filter ← lift (search_filter args);
     result ← searchIssues rawRequest (VObj filter)
                (js_or (field args "first") (VNum (Int 50)))
                (field args "after")
                (js_or (field args "orderBy") (VStr "updatedAt"));
     mret (createJsonResponse result))
    (fun error => throw (handleError error "search issues")).

End IssueHandler.

(** ** The other handlers of [IssueHandler] *)

(** [l.join(sep)]: the elements as [String] prints them, [null] and
    [undefined] as the empty string, with [sep] between them. *)
Fixpoint js_join (sep : string) (l : list value) : string :=
  match l with
  | [] => ""
  | x :: r =>
      let sx := match x with
                | VUndefined | VNull => ""
                | _ => js_String x
                end in
      match r with
      | [] => sx
      | _ :: _ => sx +:+ sep +:+ js_join sep r
      end
  end.

(** The line [handleCreateIssues] prints for one created issue,
    [`- ${issue.identifier}: ${issue.title}\n  URL: ${issue.url}`]. *)
Definition issue_line (issue : value) : res string :=
  identifier ← get issue "identifier";
  title ← get issue "title";
  url ← get issue "url";
  mret ("- " +:+ js_String identifier +:+ ": " +:+ js_String title +:+ nl +:+
        "  URL: " +:+ js_String url).

(** [createdIssues.map(issue => ...)], which only an array has. *)
Fixpoint issue_lines (createdIssues : list value) : res (list string) :=
  match createdIssues with
  | [] => mret []
  | issue :: rest =>
      line ← issue_line issue;
      lines ← issue_lines rest;
      mret (line :: lines)
  end.

Section IssueHandlerRest.

Variable rawRequest : list request -> request -> res value.
Variable verifyAuth : res unit.
Variable validateRequiredParams : obj -> list string -> res unit.
Variable createResponse : string -> value.
Variable handleError : thrown -> string -> thrown.

Definition handleCreateIssues (args : obj) : M value :=
  try_catch
    (_ ← lift verifyAuth;
     _ ← lift (validateRequiredParams args ["issues"]);
     if negb (isArray (field args "issues"))
     then throw (ErrorObj "Issues parameter must be an array")
     else
       result ← createIssues rawRequest (field args "issues");
       issueBatchCreate ← lift (get result "issueBatchCreate");
       success ← lift (get issueBatchCreate "success");
       if negb (truthy success) then throw (ErrorObj "Failed to create issues")
       else
         createdIssues ← lift (get issueBatchCreate "issues");
         count ← lift (get createdIssues "length");
         lines ← match createdIssues with
                 | VArr l => lift (issue_lines l)
                 | _ => throw (TypeError_call "createdIssues.map")
                 end;
         mret (createResponse
                 ("Successfully created " +:+ js_String count +:+ " issues:" +:+
                  nl +:+ js_join nl (VStr <$> lines))))
    (fun error => throw (handleError error "create issues")).

Definition handleDeleteIssue (args : obj) : M value :=
  try_catch
    (_ ← lift verifyAuth;
     _ ← lift (validateRequiredParams args ["id"]);
     result ← deleteIssue rawRequest (field args "id");
     issueDelete ← lift (get result "issueDelete");
     success ← lift (get issueDelete "success");
     if negb (truthy success) then throw (ErrorObj "Failed to delete issue")
     else
       mret (createResponse
               ("Successfully deleted issue " +:+ js_String (field args "id"))))
    (fun error => throw (handleError error "delete issue")).

Definition handleDeleteIssues (args : obj) : M value :=
  try_catch
    (_ ← lift verifyAuth;
     _ ← lift (validateRequiredParams args ["ids"]);
     match field args "ids" with
     | VArr ids =>
         result ← deleteIssues rawRequest (VArr ids);
         issueDelete ← lift (get result "issueDelete");
         success ← lift (get issueDelete "success");
         if negb (truthy success) then throw (ErrorObj "Failed to delete issues")
         else
           mret (createResponse
                   ("Successfully deleted " +:+
                    js_String (VNum (Int (Z.of_nat (List.length ids)))) +:+
                    " issues: " +:+ js_join ", " ids))
     | _ => throw (ErrorObj "Ids parameter must be an array")
     end)
    (fun error => throw (handleError error "delete issues")).

End IssueHandlerRest.

(** ** Stand-ins for the collaborators, for running the code *)

(** The mock transport of [__tests__/graphql-client.test.ts]
    ([mockResolvedValueOnce], [mockRejectedValueOnce]): the i-th request
    gets the i-th scripted answer.  Past the script the mock resolves to
    [undefined], and reading [response.data] in [execute] throws. *)
Definition scripted (answers : list (res value))
  : list request -> request -> res value :=
  fun log _ =>
    default (inl (TypeError_read VUndefined "data"))
            (answers !! List.length log).

(** Modelled from the spec: [BaseHandler.validateRequiredParams], which
    lives in [core/handlers/base.handler.ts], outside the code embedded here.
    "Validation failure: a required field is absent"; it is raised before
    any backend call. *)
Fixpoint validateRequiredParams_spec (args : obj) (required : list string)
  : res unit :=
  match required with
  | [] => inr ()
  | param :: rest =>
      match field args param with
      | VUndefined =>
          inl (ErrorObj ("Missing required parameter: " +:+ param))
      | _ => validateRequiredParams_spec args rest
      end
  end.

(** The arguments and answers of the tests. *)
Definition update_args (ids : list value) : obj :=
  <["issueIds" := VArr ids]>
    (<["update" := VObj {[ "stateId" := VStr "state-2" ]}]> ∅).

Definition issue_args : obj :=
  <["title" := VStr "Issue 1"]>
    (<["description" := VStr "Description 1"]>
    (<["teamId" := VStr "team-1"]> ∅)).

Definition project_created : value :=
  VObj {[ "projectCreate" :=
            VObj (<["success" := VBool true]>
                 (<["project" := VObj {[ "id" := VStr "project-1" ]}]> ∅)) ]}.

Definition issues_not_created : value :=
  VObj {[ "issueBatchCreate" :=
            VObj (<["success" := VBool false]> (<["issues" := VArr []]> ∅)) ]}.

Definition issue_updated : value :=
  VObj {[ "issueUpdate" := VObj {[ "success" := VBool true ]} ]}.

Definition issues_updated : value :=
  VObj {[ "issueBatchUpdate" :=
            VObj (<["success" := VBool true]> (<["issues" := VArr []]> ∅)) ]}.

Definition query_args (q : string) : obj := {[ "query" := VStr q ]}.

Definition todo_with_empty_query : obj :=
  <["states" := VArr [VStr "Todo"]]> (query_args "").

(** Further arguments and answers, after the tests. *)
Definition not_authenticated : res unit :=
  inl (ErrorObj "Authentication required").

Definition bare_data : value -> value := fun data => data.

Definition issue_1 : value :=
  VObj (<["identifier" := VStr "TEST-1"]>
       (<["title" := VStr "Issue 1"]>
       (<["url" := VStr "https://linear.app/test/issue/TEST-1"]> ∅))).

Definition issue_created : value :=
  VObj {[ "issueCreate" :=
            VObj (<["success" := VBool true]> (<["issue" := issue_1]> ∅)) ]}.

Definition issues_created : value :=
  VObj {[ "issueBatchCreate" :=
            VObj (<["success" := VBool true]>
                 (<["issues" := VArr [issue_1]]> ∅)) ]}.

Definition issues_deleted : value :=
  VObj {[ "issueDelete" := VObj {[ "success" := VBool true ]} ]}.

Definition project_created_without_project : value :=
  VObj {[ "projectCreate" :=
            VObj (<["success" := VBool true]> (<["project" := VNull]> ∅)) ]}.

Definition delete_args (ids : value) : obj := {[ "ids" := ids ]}.

Definition delete_one_args : obj := {[ "id" := VStr "issue-1" ]}.

Definition create_issues_args : obj := {[ "issues" := VArr [VObj issue_args] ]}.

Definition next_page_args : obj := {[ "after" := VStr "cursor123" ]}.

Definition numeric_query_args : obj := {[ "query" := VNum (Int 42) ]}.

Definition no_team_args : obj := {[ "teamIds" := VArr [] ]}.

Definition search_answer : value :=
  VObj {[ "issues" :=
            VObj (<["nodes" := VArr []]>
                 (<["pageInfo" :=
                      VObj (<["hasNextPage" := VBool false]>
                           (<["endCursor" := VNull]> ∅))]> ∅)) ]}.

Definition issue_args_with (k : string) (v : value) : obj :=
  <[k := v]> issue_args.

Definition no_args : obj := ∅.

(** U+00A0, the no-break space. *)
Definition nbsp : string :=
  String (ascii_of_nat 194) (String (ascii_of_nat 160) EmptyString).

(** The numeral of [n] nines. *)
Fixpoint nines (n : nat) : string :=
  match n with
  | O => EmptyString
  | S n => String "9" (nines n)
  end.

Definition twice_args : obj :=
  <["estimate" := VStr "3 points"]>
    (<["priority" := VNum (Int 9)]> issue_args).

(** The Numbers 2.5 and 1e21. *)
Definition two_and_a_half : number := Frac false 25 1.
Definition ten_to_21 : number := Big (10 ^ 21).

Definition no_team_filter : obj :=
  {[ "team" := VObj {[ "id" := VObj {[ "in" := VArr [] ]} ]} ]}.

(** A handler whose responses are the bare text or data, and whose
    [handleError] re-raises what it caught. *)
Definition bare_text : string -> value := VStr.
Definition reraise : thrown -> string -> thrown := fun error _ => error.

(** ** The identifier pattern, as the specification words it *)

Fixpoint all_chars (p : ascii -> bool) (s : string) : bool :=
  match s with
  | EmptyString => true
  | String c r => p c && all_chars p r
  end.

(** [q] has the shape "<letters>-<digits>" of the specification, read as
    the pattern of [extractIssueNumber] reads it: the whole of [q] is
    [letters], a hyphen and [digits], where [letters] is one or more capital
    letters A-Z and [digits] one or more decimal digits. *)
Definition identifier_shape (q letters digits : string) : Prop :=
  q = letters +:+ "-" +:+ digits
  /\ letters <> EmptyString /\ all_chars is_upper letters = true
  /\ digits <> EmptyString /\ all_chars is_digit digits = true.

(** * Properties *)

(** ** The computation monad *)

Lemma bind_inr {A B} (m : M A) (k : A -> M B) log a log' :
  m log = (inr a, log') -> (m ≫= k) log = k a log'.
Proof. intros H. unfold mbind, M_bind. by rewrite H. Qed.

Lemma bind_inl {A B} (m : M A) (k : A -> M B) log e log' :
  m log = (inl e, log') -> (m ≫= k) log = (inl e, log').
Proof. intros H. unfold mbind, M_bind. by rewrite H. Qed.

Lemma bind_lift_inr {A B} (r : res A) (k : A -> M B) log a :
  r = inr a -> (lift r ≫= k) log = k a log.
Proof. intros ->. reflexivity. Qed.

Lemma bind_lift_inl {A B} (r : res A) (k : A -> M B) log e :
  r = inl e -> (lift r ≫= k) log = (inl e, log).
Proof. intros ->. reflexivity. Qed.

Lemma get_inr v k : nullish v = false -> get v k = inr (prop v k).
Proof. intros H. unfold get. by rewrite H. Qed.

Lemma get_inl v k : nullish v = true -> get v k = inl (TypeError_read v k).
Proof. intros H. unfold get. by rewrite H. Qed.

Lemma get_obj o k : get (VObj o) k = inr (field o k).
Proof. reflexivity. Qed.

(** ** The client *)

Section ClientFacts.

Variable rawRequest : list request -> request -> res value.

Lemma execute_inr doc variables log data :
  rawRequest log (Request doc variables) = inr data ->
  execute rawRequest doc variables log
  = (inr data, log ++ [Request doc variables]).
Proof. intros H. unfold execute, try_catch, send. by rewrite H. Qed.

Lemma execute_Error doc variables log message :
  rawRequest log (Request doc variables) = inl (ErrorObj message) ->
  execute rawRequest doc variables log
  = (inl (ErrorObj ("GraphQL operation failed: " +:+ message)),
     log ++ [Request doc variables]).
Proof. intros H. unfold execute, try_catch, send. by rewrite H. Qed.

Lemma execute_Thrown doc variables log v :
  rawRequest log (Request doc variables) = inl (Thrown v) ->
  execute rawRequest doc variables log
  = (inl (Thrown v), log ++ [Request doc variables]).
Proof. intros H. unfold execute, try_catch, send. by rewrite H. Qed.

(** Whatever the transport answers, [execute] sends one request. *)
Lemma execute_log doc variables log :
  snd (execute rawRequest doc variables log)
  = log ++ [Request doc variables].
Proof.
  unfold execute, try_catch, send.
  destruct (rawRequest log _) as [[m|v]|data]; reflexivity.
Qed.

Lemma issuesWithProject_inr projectResult projectCreate issues :
  get projectResult "projectCreate" = inr projectCreate ->
  nullish projectCreate = false ->
  nullish (prop projectCreate "project") = false ->
  issuesWithProject projectResult issues
  = inr (with_projectId (prop (prop projectCreate "project") "id") <$> issues).
Proof.
  intros Hpc Hnn Hproj. induction issues as [|issue rest IH]; [done|].
  cbn [issuesWithProject]. rewrite Hpc. cbn [mbind res_bind].
  rewrite (get_inr _ _ Hnn). cbn [mbind res_bind].
  rewrite (get_inr _ _ Hproj). cbn [mbind res_bind].
  rewrite IH. reflexivity.
Qed.

(** The single-entity update binds [id] and [input], the two variables
    [UPDATE_ISSUE_MUTATION] declares. *)
Lemma updateIssue_binds_declared id input log :
  exists rq,
    snd (updateIssue rawRequest id input log) = log ++ [rq]
    /\ req_document rq = UPDATE_ISSUE_MUTATION
    /\ bound_variables rq = declared_variables UPDATE_ISSUE_MUTATION.
Proof.
  eexists. split; [apply execute_log|]. split; [done|].
  unfold bound_variables; cbn [req_variables declared_variables].
  rewrite !dom_insert_L, dom_empty_L. set_solver.
Qed.

(** C3: a routed call should bind exactly the variables its operation
    declares.  [updateIssues] does not: whatever it is given, the one
    request it sends names [UPDATE_ISSUES_MUTATION] and binds [ids] and
    [input], while that mutation declares [input] alone; [ids] is bound
    and not declared. *)
Theorem updateIssues_binds_undeclared_ids ids input :
  exists rq,
    snd (run (updateIssues rawRequest ids input)) = [rq]
    /\ req_document rq = UPDATE_ISSUES_MUTATION
    /\ req_variables rq = VObj (<["ids" := ids]> (<["input" := input]> ∅))
    /\ bound_variables rq = {[ "ids"; "input" ]}
    /\ declared_variables UPDATE_ISSUES_MUTATION = {[ "input" ]}
    /\ "ids" ∈ bound_variables rq
    /\ "ids" ∉ declared_variables UPDATE_ISSUES_MUTATION.
Proof.
  eexists. split; [exact (execute_log _ _ [])|]. split; [done|]. split; [done|].
  unfold bound_variables; cbn [req_variables declared_variables].
  rewrite !dom_insert_L, dom_empty_L.
  split; [set_solver|]. split; [done|]. split; [set_solver|].
  rewrite elem_of_singleton. discriminate.
Qed.

(** C4, as amended: when the transport fails with an [Error] whose
    message is [m], [execute] raises an [Error] whose message is
    "GraphQL operation failed: " followed by [m], after sending the one
    request. *)
Theorem execute_transport_failure doc variables log m :
  rawRequest log (Request doc variables) = inl (ErrorObj m) ->
  execute rawRequest doc variables log
  = (inl (ErrorObj ("GraphQL operation failed: " +:+ m)),
     log ++ [Request doc variables]).
Proof. apply execute_Error. Qed.

(** C2: the two steps of [createProjectWithIssues].  Let the backend
    answer the project step with a [projectCreate] record.  If its
    [success] is false, the composite throws "Failed to create project"
    and the project request is the only one sent.  If it is true (and the
    record carries the project), the second and last request is the batch
    creation, every issue payload carrying the project's id as
    [projectId]; and if the backend answers that step with [success]
    false, the composite throws "Failed to create issues" with exactly
    those two requests sent: nothing is sent to undo the project. *)
Theorem createProjectWithIssues_steps
    projectInput issues projectResult projectCreate :
  let step1 := Request CREATE_PROJECT (VObj {[ "input" := projectInput ]}) in
  rawRequest [] step1 = inr projectResult ->
  get projectResult "projectCreate" = inr projectCreate ->
  nullish projectCreate = false ->
  (truthy (prop projectCreate "success") = false ->
   run (createProjectWithIssues rawRequest projectInput issues)
   = (inl (ErrorObj "Failed to create project"), [step1]))
  /\ (truthy (prop projectCreate "success") = true ->
      nullish (prop projectCreate "project") = false ->
      let id := prop (prop projectCreate "project") "id" in
      let payloads := (fun issue : obj => VObj (<["projectId" := id]> issue)) <$> issues in
      let step2 :=
        Request CREATE_BATCH_ISSUES
          (VObj {[ "input" := VObj {[ "issues" := VArr payloads ]} ]}) in
      snd (run (createProjectWithIssues rawRequest projectInput issues))
      = [step1; step2]
      /\ forall issuesResult issueBatchCreate,
          rawRequest [step1] step2 = inr issuesResult ->
          get issuesResult "issueBatchCreate" = inr issueBatchCreate ->
          nullish issueBatchCreate = false ->
          truthy (prop issueBatchCreate "success") = false ->
          run (createProjectWithIssues rawRequest projectInput issues)
          = (inl (ErrorObj "Failed to create issues"), [step1; step2])).
Proof.
  intros step1 Hreq Hpc Hnn.
  unfold run, createProjectWithIssues, createProject.
  rewrite (bind_inr _ _ _ _ _ (execute_inr _ _ _ _ Hreq)).
  rewrite (bind_lift_inr _ _ _ _ Hpc).
  rewrite (bind_lift_inr _ _ _ _ (get_inr _ "success" Hnn)).
  split.
  - intros ->. reflexivity.
  - intros -> Hproj. cbn [negb app].
    set (id := prop (prop projectCreate "project") "id").
    set (payloads := (fun issue : obj => VObj (<["projectId" := id]> issue)) <$> issues).
    set (step2 := Request CREATE_BATCH_ISSUES _).
    rewrite (bind_lift_inr _ _ _ _
               (issuesWithProject_inr _ _ issues Hpc Hnn Hproj)).
    fold id.
    assert (VObj <$> (with_projectId id <$> issues) = payloads) as ->.
    { unfold payloads, with_projectId. by rewrite <- list_fmap_compose. }
    unfold createBatchIssues. split.
    + unfold mbind at 1, M_bind at 1.
      pose proof (execute_log CREATE_BATCH_ISSUES
                    (VObj {[ "input" := VObj {[ "issues" := VArr payloads ]} ]})
                    [step1]) as Hlog.
      destruct (execute _ _ _ _) as [[e|issuesResult] log'];
        cbn [snd] in Hlog; subst log'; [done|].
      unfold mbind, M_bind, lift, throw.
      destruct (get issuesResult _) as [e|ibc]; [done|].
      destruct (get ibc _) as [e|s]; [done|].
      destruct (negb (truthy s)); done.
    + intros issuesResult issueBatchCreate Hreq2 Hibc Hnn2 Hfail.
      rewrite (bind_inr _ _ _ _ _ (execute_inr _ _ _ _ Hreq2)).
      rewrite (bind_lift_inr _ _ _ _ Hibc).
      rewrite (bind_lift_inr _ _ _ _ (get_inr _ "success" Hnn2)).
      rewrite Hfail. reflexivity.
Qed.

End ClientFacts.

(** ** The issue handler *)

(** A handler that catches to re-raise sends what its body sends, and
    answers what its body answers, errors going through the re-raise. *)
Lemma try_catch_throw {A} (m : M A) (h : thrown -> thrown) log :
  try_catch m (fun e => throw (h e)) log
  = (match fst (m log) with
     | inl e => inl (h e)
     | inr a => inr a
     end, snd (m log)).
Proof. unfold try_catch, throw. by destruct (m log) as [[e|a] log']. Qed.

Lemma truthy_get_opt_nullish v k :
  truthy (get_opt v k) = true -> nullish v = false.
Proof. unfold get_opt. by destruct (nullish v). Qed.

(** Steps that only compute do not touch the log. *)
Ltac pure_steps :=
  unfold mbind, M_bind, lift, throw, mret, M_ret;
  repeat match goal with
         | |- context [if ?c then _ else _] =>
             match type of c with bool => destruct c end
         | |- context [match ?x with _ => _ end] => destruct x
         end;
  reflexivity.

Section HandlerFacts.

Variable rawRequest : list request -> request -> res value.
Variable verifyAuth : res unit.
Variable validateRequiredParams : obj -> list string -> res unit.
Variable createResponse : string -> value.
Variable createJsonResponse : value -> value.
Variable handleError : thrown -> string -> thrown.

Lemma handleBulkUpdateIssues_single args id :
  verifyAuth = inr () ->
  validateRequiredParams args ["issueIds"; "update"] = inr () ->
  field args "issueIds" = VArr [id] ->
  let rq := Request UPDATE_ISSUE_MUTATION
              (VObj (<["id" := id]> (<["input" := field args "update"]> ∅))) in
  snd (run (handleBulkUpdateIssues rawRequest verifyAuth validateRequiredParams
         createResponse handleError args)) = [rq]
  /\ forall data,
      rawRequest [] rq = inr data ->
      nullish data = false ->
      fst (run (handleBulkUpdateIssues rawRequest verifyAuth
                  validateRequiredParams createResponse handleError args))
      = if truthy (get_opt (prop data "issueUpdate") "success")
        then inr (createResponse "Successfully updated issue")
        else inl (handleError (ErrorObj "Failed to update issue") "update issues").
Proof.
  intros Hauth Hval Hids rq.
  unfold run, handleBulkUpdateIssues. rewrite try_catch_throw.
  rewrite (bind_lift_inr _ _ _ _ Hauth), (bind_lift_inr _ _ _ _ Hval), Hids.
  cbn [List.length Nat.eqb lookup list_lookup default fst snd].
  unfold updateIssue. fold rq. split.
  - unfold mbind at 1, M_bind at 1.
    pose proof (execute_log rawRequest UPDATE_ISSUE_MUTATION (req_variables rq) [])
      as Hlog.
    destruct (execute _ _ _ _) as [[e|result] log']; cbn [snd] in Hlog;
      subst log'; [done|].
    pure_steps.
  - intros data Hreq Hnn.
    rewrite (bind_inr _ _ _ _ _ (execute_inr _ _ _ _ _ Hreq)).
    rewrite (bind_lift_inr _ _ _ _ (get_inr _ "issueUpdate" Hnn)).
    by destruct (truthy _).
Qed.

Lemma handleBulkUpdateIssues_bulk args ids :
  verifyAuth = inr () ->
  validateRequiredParams args ["issueIds"; "update"] = inr () ->
  field args "issueIds" = VArr ids ->
  List.length ids <> 1%nat ->
  let rq := Request UPDATE_ISSUES_MUTATION
              (VObj (<["ids" := VArr ids]> (<["input" := field args "update"]> ∅))) in
  snd (run (handleBulkUpdateIssues rawRequest verifyAuth validateRequiredParams
         createResponse handleError args)) = [rq]
  /\ forall data,
      rawRequest [] rq = inr data ->
      nullish data = false ->
      fst (run (handleBulkUpdateIssues rawRequest verifyAuth
                  validateRequiredParams createResponse handleError args))
      = if truthy (get_opt (prop data "issueBatchUpdate") "success")
        then match get (prop (prop data "issueBatchUpdate") "issues") "length" with
             | inr updatedCount =>
                 inr (createResponse
                        ("Successfully updated " +:+ js_String updatedCount +:+
                         " issues"))
             | inl e => inl (handleError e "update issues")
             end
        else inl (handleError (ErrorObj "Failed to update issues") "update issues").
Proof.
  intros Hauth Hval Hids Hlen rq.
  unfold run, handleBulkUpdateIssues. rewrite try_catch_throw.
  rewrite (bind_lift_inr _ _ _ _ Hauth), (bind_lift_inr _ _ _ _ Hval), Hids.
  apply Nat.eqb_neq in Hlen. rewrite Hlen. cbn [fst snd].
  unfold updateIssues. fold rq. split.
  - unfold mbind at 1, M_bind at 1.
    pose proof (execute_log rawRequest UPDATE_ISSUES_MUTATION (req_variables rq) [])
      as Hlog.
    destruct (execute _ _ _ _) as [[e|result] log']; cbn [snd] in Hlog;
      subst log'; [done|].
    pure_steps.
  - intros data Hreq Hnn.
    rewrite (bind_inr _ _ _ _ _ (execute_inr _ _ _ _ _ Hreq)).
    rewrite (bind_lift_inr _ _ _ _ (get_inr _ "issueBatchUpdate" Hnn)).
    destruct (truthy _) eqn:Hs; [|done]. cbn [negb].
    apply truthy_get_opt_nullish in Hs.
    rewrite (bind_lift_inr _ _ _ _ (get_inr _ "issues" Hs)).
    unfold mbind, M_bind, lift, mret, M_ret.
    by destruct (get _ "length").
Qed.

(** C1: the routing of [handleBulkUpdateIssues] on a non-empty list of
    identifiers.  With exactly one identifier the one request sent is
    [UPDATE_ISSUE_MUTATION], binding that identifier as [id], and the
    handler succeeds exactly when [issueUpdate.success] of the answer is
    true.  With two or more the one request sent is
    [UPDATE_ISSUES_MUTATION], binding the list as [ids], and success is
    read from [issueBatchUpdate.success].  In either branch the other
    field of the answer is not looked at. *)
Theorem handleBulkUpdateIssues_routes args ids :
  verifyAuth = inr () ->
  validateRequiredParams args ["issueIds"; "update"] = inr () ->
  field args "issueIds" = VArr ids ->
  ids <> [] ->
  let handled :=
    run (handleBulkUpdateIssues rawRequest verifyAuth validateRequiredParams
           createResponse handleError args) in
  (forall id, ids = [id] ->
     let rq := Request UPDATE_ISSUE_MUTATION
                 (VObj (<["id" := id]> (<["input" := field args "update"]> ∅))) in
     snd handled = [rq]
     /\ forall data,
         rawRequest [] rq = inr data ->
         nullish data = false ->
         fst handled
         = if truthy (get_opt (prop data "issueUpdate") "success")
           then inr (createResponse "Successfully updated issue")
           else inl (handleError (ErrorObj "Failed to update issue")
                       "update issues"))
  /\ ((2 <= List.length ids)%nat ->
      let rq := Request UPDATE_ISSUES_MUTATION
                  (VObj (<["ids" := VArr ids]>
                        (<["input" := field args "update"]> ∅))) in
      snd handled = [rq]
      /\ forall data,
          rawRequest [] rq = inr data ->
          nullish data = false ->
          fst handled
          = if truthy (get_opt (prop data "issueBatchUpdate") "success")
            then match get (prop (prop data "issueBatchUpdate") "issues")
                         "length" with
                 | inr updatedCount =>
                     inr (createResponse
                            ("Successfully updated " +:+
                             js_String updatedCount +:+ " issues"))
                 | inl e => inl (handleError e "update issues")
                 end
            else inl (handleError (ErrorObj "Failed to update issues")
                        "update issues")).
Proof.
  intros Hauth Hval Hids _ handled. split.
  - intros id ->. exact (handleBulkUpdateIssues_single args id Hauth Hval Hids).
  - intros Hlen.
    apply (handleBulkUpdateIssues_bulk args ids Hauth Hval Hids). lia.
Qed.

(** C9: an empty list of identifiers takes the bulk branch.  Once the
    checks of required parameters have let the arguments through, the
    array check lets the empty list through too, and the one request sent
    is [UPDATE_ISSUES_MUTATION] with [ids] bound to the empty list;
    success is read from [issueBatchUpdate.success] of the answer. *)
Theorem handleBulkUpdateIssues_empty args :
  verifyAuth = inr () ->
  validateRequiredParams args ["issueIds"; "update"] = inr () ->
  field args "issueIds" = VArr [] ->
  let handled :=
    run (handleBulkUpdateIssues rawRequest verifyAuth validateRequiredParams
           createResponse handleError args) in
  let rq := Request UPDATE_ISSUES_MUTATION
              (VObj (<["ids" := VArr []]>
                    (<["input" := field args "update"]> ∅))) in
  snd handled = [rq]
  /\ forall data,
      rawRequest [] rq = inr data ->
      nullish data = false ->
      fst handled
      = if truthy (get_opt (prop data "issueBatchUpdate") "success")
        then match get (prop (prop data "issueBatchUpdate") "issues")
                     "length" with
             | inr updatedCount =>
                 inr (createResponse
                        ("Successfully updated " +:+
                         js_String updatedCount +:+ " issues"))
             | inl e => inl (handleError e "update issues")
             end
        else inl (handleError (ErrorObj "Failed to update issues")
                    "update issues").
Proof.
  intros Hauth Hval Hids.
  apply (handleBulkUpdateIssues_bulk args [] Hauth Hval Hids). discriminate.
Qed.

End HandlerFacts.

(** ** Strings: [span], [parseInt] and the identifier pattern *)

Lemma append_nil_l s : "" +:+ s = s.
Proof. reflexivity. Qed.

Lemma append_cons c a b : String c a +:+ b = String c (a +:+ b).
Proof. reflexivity. Qed.

Lemma append_nil_r s : s +:+ "" = s.
Proof. induction s as [|c s IH]; [done|]. by rewrite append_cons, IH. Qed.

Lemma span_app p a b :
  all_chars p a = true ->
  match b with
  | EmptyString => True
  | String c _ => p c = false
  end ->
  span p (a +:+ b) = (a, b).
Proof.
  intros Ha Hb. induction a as [|c a IH].
  - rewrite append_nil_l. destruct b as [|c b]; [done|].
    cbn [span]. cbv beta iota in Hb. by rewrite Hb.
  - rewrite append_cons. cbn [span].
    cbn [all_chars] in Ha. apply andb_true_iff in Ha as [Hc Ha].
    by rewrite Hc, IH.
Qed.

Lemma span_inv p s a b :
  span p s = (a, b) ->
  s = a +:+ b
  /\ all_chars p a = true
  /\ match b with
     | EmptyString => True
     | String c _ => p c = false
     end.
Proof.
  revert a b. induction s as [|c s IH]; intros a b; cbn [span].
  - by intros [= <- <-].
  - destruct (p c) eqn:Hc.
    + destruct (span p s) as [a' b'] eqn:Hs. intros [= <- <-].
      destruct (IH a' b' eq_refl) as (-> & Ha & Hb).
      rewrite append_cons. cbn [all_chars]. by rewrite Hc, Ha.
    + intros [= <- <-]. by repeat split.
Qed.

Lemma is_digit_not_sign c :
  is_digit c = true -> c <> "-"%char /\ c <> "+"%char.
Proof. intros H. split; intros ->; discriminate. Qed.

Lemma is_upper_not_hyphen : is_upper "-" = false.
Proof. reflexivity. Qed.

(** A digit is not white space, nor the first byte of any. *)
Lemma skip_white_digit c r :
  is_digit c = true -> skip_white (String c r) = String c r.
Proof.
  intros Hc.
  destruct c as [[] [] [] [] [] [] [] []]; try discriminate Hc;
    by destruct r as [|c2 [|c3 r]].
Qed.

Lemma skip_white_minus r : skip_white (String "-" r) = String "-" r.
Proof. by destruct r as [|c2 [|c3 r]]. Qed.

(** ** Numbers: rounding and [parseInt] *)

Lemma to_number_small z : Z.abs z < two53 -> to_number z = Int z.
Proof. intros H. unfold to_number. by rewrite (proj2 (Z.ltb_lt _ _) H). Qed.

(** Rounding an integer of 2^53 or more gives 2^53 or more. *)
Lemma round_double_ge a x :
  two53 <= a -> round_double a = Some x -> two53 <= x.
Proof.
  intros Ha. unfold round_double.
  assert (53 <= Z.log2 a) as Hlog.
  { change 53 with (Z.log2 two53). by apply Z.log2_le_mono. }
  assert (0 < a) as Hpos by (unfold two53 in Ha; lia).
  set (e := Z.log2 a - 52).
  assert (1 <= e) as He by (unfold e; lia).
  destruct (Z.leb_spec e 0) as [?|_]; [lia|].
  cbv zeta.
  assert (2 ^ 52 <= Z.shiftr a e) as Hq.
  { rewrite Z.shiftr_div_pow2 by lia.
    apply Z.div_le_lower_bound; [apply Z.pow_pos_nonneg; lia|].
    rewrite Z.mul_comm, <- Z.pow_add_r by lia.
    replace (52 + e) with (Z.log2 a) by (unfold e; lia).
    by apply Z.log2_spec. }
  set (q := Z.shiftr a e) in *.
  set (q' := if _ : bool then q + 1 else q).
  assert (2 ^ 52 <= q') as Hq' by (unfold q'; destruct (_ || _); lia).
  destruct (_ <=? _); [done|]. intros [= <-].
  rewrite Z.shiftl_mul_pow2 by lia.
  assert (2 ^ 1 <= 2 ^ e) as Hp by (apply Z.pow_le_mono_r; lia).
  change two53 with (2 ^ 52 * 2 ^ 1).
  apply Z.mul_le_mono_nonneg; lia.
Qed.

(** What a run of digits denotes: the integer itself below 2^53, a
    double of 2^53 or more of the same sign, or an infinity. *)
Lemma to_number_cases z :
  match to_number z with
  | Int y => y = z /\ Z.abs z < two53
  | Big y => two53 <= Z.abs y /\ (y < 0 <-> z < 0) /\ two53 <= Z.abs z
  | Inf negative => negative = (z <? 0) /\ two53 <= Z.abs z
  | NaN | Frac _ _ _ => False
  end.
Proof.
  unfold to_number. destruct (Z.ltb_spec (Z.abs z) two53) as [Hz|Hz]; [done|].
  destruct (round_double (Z.abs z)) as [x|] eqn:Hx; [|done].
  pose proof (round_double_ge _ _ Hz Hx) as Hge. unfold two53 in *.
  destruct (Z.ltb_spec z 0); repeat split; lia.
Qed.

Lemma parseInt10_cases s :
  parseInt10 s = NaN \/ exists z, parseInt10 s = to_number z.
Proof.
  unfold parseInt10.
  destruct (match skip_white s with
            | String "-" r => (-1, r)
            | String "+" r => (1, r)
            | _ => (1, skip_white s)
            end) as [sign s2].
  destruct (fst (span is_digit s2)); [by left|right; by eexists].
Qed.

(** [parseInt] never answers a fraction, its [Int]s are below 2^53 and
    its [Big]s are not. *)
Lemma parseInt10_kind s :
  match parseInt10 s with
  | NaN | Inf _ => True
  | Int z => Z.abs z < two53
  | Big z => two53 <= Z.abs z
  | Frac _ _ _ => False
  end.
Proof.
  destruct (parseInt10_cases s) as [->|[z ->]]; [done|].
  pose proof (to_number_cases z) as H.
  destruct (to_number z); try done; [destruct H as [-> H]|]; tauto.
Qed.

(** The priority test of the handler leaves an integer from 0 to 4. *)
Lemma priority_in_range s :
  exists p,
    0 <= p <= 4
    /\ (if isNaN (parseInt10 s) || num_lt (parseInt10 s) 0
           || num_gt (parseInt10 s) 4
        then Int 0 else parseInt10 s) = Int p.
Proof.
  pose proof (parseInt10_kind s) as H.
  destruct (parseInt10 s) as [|z|z|[]|]; cbn [isNaN num_lt num_gt orb negb];
    try (exists 0; split; [lia|done]); try done.
  - destruct (Z.ltb_spec z 0), (Z.ltb_spec 4 z); cbn [orb];
      eexists; (split; [|reflexivity]); lia.
  - unfold two53 in H.
    destruct (Z.ltb_spec z 0), (Z.ltb_spec 4 z); cbn [orb];
      try (exists 0; split; [lia|done]); lia.
Qed.

(** [parseInt] reads the digits a string starts with and ignores what
    follows them. *)
Lemma parseInt10_leading_digits ds rest :
  ds <> EmptyString ->
  all_chars is_digit ds = true ->
  match rest with
  | EmptyString => True
  | String c _ => is_digit c = false
  end ->
  parseInt10 (ds +:+ rest) = to_number (digits_value ds).
Proof.
  intros Hne Hds Hrest. destruct ds as [|c r]; [done|].
  pose proof Hds as Hall.
  cbn [all_chars] in Hds. apply andb_true_iff in Hds as [Hc Hr].
  rewrite append_cons. unfold parseInt10.
  rewrite (skip_white_digit c _ Hc).
  destruct (is_digit_not_sign c Hc) as [Hm Hp].
  assert ((let '(sign, s2) :=
             match String c (r +:+ rest) with
             | String "-" r0 => (-1, r0)
             | String "+" r0 => (1, r0)
             | _ => (1, String c (r +:+ rest))
             end in
           match fst (span is_digit s2) with
           | EmptyString => NaN
           | String a s => to_number (sign * digits_value (String a s))
           end)
          = match fst (span is_digit (String c (r +:+ rest))) with
            | EmptyString => NaN
            | String a s => to_number (1 * digits_value (String a s))
            end) as ->.
  { destruct c as [[] [] [] [] [] [] [] []]; try reflexivity; congruence. }
  rewrite <- append_cons.
  rewrite (span_app is_digit (String c r) rest Hall Hrest). cbn [fst].
  by rewrite Z.mul_1_l.
Qed.

(** On a non-empty string of digits [parseInt] reads them all. *)
Lemma parseInt10_digits ds :
  ds <> EmptyString ->
  all_chars is_digit ds = true ->
  parseInt10 ds = to_number (digits_value ds).
Proof.
  intros Hne Hds. rewrite <- (append_nil_r ds) at 1.
  by apply parseInt10_leading_digits.
Qed.

(** On a minus sign and a non-empty string of digits [parseInt] answers
    the opposite of what the digits denote. *)
Lemma parseInt10_minus_digits ds :
  ds <> EmptyString ->
  all_chars is_digit ds = true ->
  parseInt10 (String "-" ds) = to_number (- digits_value ds).
Proof.
  intros Hne Hds. unfold parseInt10. rewrite skip_white_minus.
  cbv beta iota zeta.
  rewrite <- (append_nil_r ds) at 1.
  rewrite (span_app is_digit ds "" Hds I). cbn [fst].
  destruct ds as [|c r]; [done|]. f_equal; lia.
Qed.

(** ** [String] of an integer, read back by [parseInt] *)

Lemma digits_from_of_uint_acc d acc :
  digits_from (Z.pos acc) (NilEmpty.string_of_uint d)
  = Z.pos (Pos.of_uint_acc d acc).
Proof.
  revert acc. induction d as [|d IH|d IH|d IH|d IH|d IH|d IH|d IH|d IH|d IH|d IH];
    intros acc; [reflexivity|..];
    cbn [NilEmpty.string_of_uint digits_from Pos.of_uint_acc];
    rewrite <- IH; f_equal;
    match goal with |- context [digit_value ?c] =>
      let v := eval vm_compute in (digit_value c) in change (digit_value c) with v end;
    lia.
Qed.

Lemma digits_value_of_uint d :
  digits_value (NilEmpty.string_of_uint d) = Z.of_N (Pos.of_uint d).
Proof.
  unfold digits_value.
  induction d as [|d IH|d IH|d IH|d IH|d IH|d IH|d IH|d IH|d IH|d IH];
    [reflexivity|exact IH|..];
    cbn [NilEmpty.string_of_uint digits_from Pos.of_uint];
    exact (digits_from_of_uint_acc d _).
Qed.

Lemma all_digits_of_uint d :
  all_chars is_digit (NilEmpty.string_of_uint d) = true.
Proof.
  induction d; cbn [NilEmpty.string_of_uint all_chars]; [done|..];
    by rewrite IHd.
Qed.

Lemma to_uint_not_Nil p : Pos.to_uint p <> Decimal.Nil.
Proof.
  intros H. pose proof (Stdlib.Numbers.DecimalPos.Unsigned.of_to p) as Hp.
  rewrite H in Hp. discriminate.
Qed.

Lemma string_of_to_uint p :
  NilEmpty.string_of_uint (Pos.to_uint p) <> ""
  /\ all_chars is_digit (NilEmpty.string_of_uint (Pos.to_uint p)) = true
  /\ digits_value (NilEmpty.string_of_uint (Pos.to_uint p)) = Z.pos p
  /\ decimal (Z.pos p) = NilEmpty.string_of_uint (Pos.to_uint p)
  /\ decimal (Z.neg p) = String "-" (NilEmpty.string_of_uint (Pos.to_uint p)).
Proof.
  pose proof (to_uint_not_Nil p) as Hnil.
  repeat split.
  - destruct (Pos.to_uint p); [done|discriminate..].
  - apply all_digits_of_uint.
  - rewrite digits_value_of_uint, Stdlib.Numbers.DecimalPos.Unsigned.of_to. reflexivity.
  - unfold decimal. cbn [Z.to_int NilZero.string_of_int].
    unfold NilZero.string_of_uint. by destruct (Pos.to_uint p).
  - unfold decimal. cbn [Z.to_int NilZero.string_of_int].
    unfold NilZero.string_of_uint. by destruct (Pos.to_uint p).
Qed.


(** [parseInt(String(z), 10)] is [z], for every integer [z] below 2^53
    in magnitude; beyond, it is the double nearest to [z]. *)
Lemma parseInt10_decimal z : parseInt10 (decimal z) = to_number z.
Proof.
  destruct z as [|p|p].
  - reflexivity.
  - destruct (string_of_to_uint p) as (Hne & Hall & Hval & -> & _).
    by rewrite (parseInt10_digits _ Hne Hall), Hval.
  - destruct (string_of_to_uint p) as (Hne & Hall & Hval & _ & ->).
    by rewrite (parseInt10_minus_digits _ Hne Hall), Hval.
Qed.

Lemma parseInt10_decimal_small z :
  Z.abs z < two53 -> parseInt10 (decimal z) = Int z.
Proof. intros Hz. by rewrite parseInt10_decimal, to_number_small. Qed.

(** ** Normalisation of estimate and priority *)

Lemma process_estimate_lookup args :
  process_estimate args !! "estimate"
  = match field args "estimate" with
    | VUndefined => args !! "estimate"
    | estimate =>
        if isNaN (parseInt10 (js_String estimate)) then None
        else Some (VNum (parseInt10 (js_String estimate)))
    end.
Proof.
  unfold process_estimate.
  destruct (field args "estimate") eqn:He; try done; cbv zeta;
    destruct (isNaN _);
    by rewrite ?lookup_delete_eq, ?lookup_insert_eq.
Qed.

Lemma process_estimate_other args k :
  k <> "estimate" -> process_estimate args !! k = args !! k.
Proof.
  intros Hk. unfold process_estimate.
  destruct (field args "estimate"); try done; cbv zeta;
    destruct (isNaN _);
    by rewrite ?lookup_delete_ne, ?lookup_insert_ne.
Qed.

Lemma process_priority_lookup args :
  process_priority args !! "priority"
  = match field args "priority" with
    | VUndefined => args !! "priority"
    | priority =>
        Some (VNum (if isNaN (parseInt10 (js_String priority))
                       || num_lt (parseInt10 (js_String priority)) 0
                       || num_gt (parseInt10 (js_String priority)) 4
                    then Int 0
                    else parseInt10 (js_String priority)))
    end.
Proof.
  unfold process_priority.
  destruct (field args "priority") eqn:He; try done; cbv zeta;
    by destruct (_ || _); rewrite ?lookup_insert_eq.
Qed.

Lemma process_priority_other args k :
  k <> "priority" -> process_priority args !! k = args !! k.
Proof.
  intros Hk. unfold process_priority.
  destruct (field args "priority"); try done;
    destruct (_ || _); by rewrite ?lookup_insert_ne.
Qed.

Lemma field_Some (o : obj) k v : o !! k = Some v -> field o k = v.
Proof. unfold field. by intros ->. Qed.

Lemma processedArgs_estimate_lookup (args : obj) :
  processedArgs args !! "estimate"
  = match field args "estimate" with
    | VUndefined => args !! "estimate"
    | estimate =>
        if isNaN (parseInt10 (js_String estimate)) then None
        else Some (VNum (parseInt10 (js_String estimate)))
    end.
Proof.
  unfold processedArgs. rewrite process_priority_other by done.
  apply process_estimate_lookup.
Qed.

Lemma processedArgs_priority_lookup (args : obj) :
  processedArgs args !! "priority"
  = match field args "priority" with
    | VUndefined => args !! "priority"
    | priority =>
        Some (VNum (if isNaN (parseInt10 (js_String priority))
                       || num_lt (parseInt10 (js_String priority)) 0
                       || num_gt (parseInt10 (js_String priority)) 4
                    then Int 0
                    else parseInt10 (js_String priority)))
    end.
Proof.
  unfold processedArgs. rewrite process_priority_lookup.
  unfold field. by rewrite !process_estimate_other.
Qed.

(** What becomes of a priority that was supplied. *)
Lemma processedArgs_priority (args : obj) priority :
  args !! "priority" = Some priority ->
  priority <> VUndefined ->
  processedArgs args !! "priority"
  = Some (VNum (if isNaN (parseInt10 (js_String priority))
                   || num_lt (parseInt10 (js_String priority)) 0
                   || num_gt (parseInt10 (js_String priority)) 4
                then Int 0
                else parseInt10 (js_String priority))).
Proof.
  intros Hp Hdef. rewrite processedArgs_priority_lookup.
  rewrite (field_Some _ _ _ Hp). by destruct priority.
Qed.

(** What becomes of an estimate that was supplied. *)
Lemma processedArgs_estimate (args : obj) estimate :
  args !! "estimate" = Some estimate ->
  estimate <> VUndefined ->
  processedArgs args !! "estimate"
  = if isNaN (parseInt10 (js_String estimate)) then None
    else Some (VNum (parseInt10 (js_String estimate))).
Proof.
  intros He Hdef. rewrite processedArgs_estimate_lookup.
  rewrite (field_Some _ _ _ He). by destruct estimate.
Qed.

(** The fields other than estimate and priority pass through. *)
Lemma processedArgs_other (args : obj) k :
  k <> "estimate" -> k <> "priority" ->
  processedArgs args !! k = args !! k.
Proof.
  intros. unfold processedArgs.
  by rewrite process_priority_other, process_estimate_other.
Qed.

(** The priority of the processed arguments, by what [parseInt] answers. *)
Lemma processedArgs_priority_parsed (args : obj) priority p :
  args !! "priority" = Some priority ->
  priority <> VUndefined ->
  parseInt10 (js_String priority) = Int p ->
  processedArgs args !! "priority"
  = Some (VNum (Int (if (0 <=? p) && (p <=? 4) then p else 0))).
Proof.
  intros Hp Hdef Hparse. rewrite (processedArgs_priority args priority Hp Hdef).
  rewrite Hparse. cbn [isNaN num_lt num_gt orb].
  destruct (Z.ltb_spec p 0), (Z.ltb_spec 4 p), (Z.leb_spec 0 p),
    (Z.leb_spec p 4); cbn [orb andb]; try lia; reflexivity.
Qed.


Section CreateIssueFacts.

Variable rawRequest : list request -> request -> res value.
Variable verifyAuth : res unit.
Variable validateRequiredParams : obj -> list string -> res unit.
Variable createResponse : string -> value.
Variable handleError : thrown -> string -> thrown.

(** Once the session and the required parameters have been checked,
    [handleCreateIssue] sends one request: [CREATE_ISSUE_MUTATION] with
    the processed arguments as [input]. *)
Lemma handleCreateIssue_sends args :
  verifyAuth = inr () ->
  validateRequiredParams args ["title"; "description"; "teamId"] = inr () ->
  snd (run (handleCreateIssue rawRequest verifyAuth validateRequiredParams
              createResponse handleError args))
  = [Request CREATE_ISSUE_MUTATION
       (VObj {[ "input" := VObj (processedArgs args) ]})].
Proof.
  intros Hauth Hval.
  unfold run, handleCreateIssue. rewrite try_catch_throw.
  rewrite (bind_lift_inr _ _ _ _ Hauth), (bind_lift_inr _ _ _ _ Hval).
  cbn [fst snd]. unfold createIssue.
  unfold mbind at 1, M_bind at 1.
  pose proof (execute_log rawRequest CREATE_ISSUE_MUTATION
                (VObj {[ "input" := VObj (processedArgs args) ]}) []) as Hlog.
  destruct (execute _ _ _ _) as [[e|result] log']; cbn [snd] in Hlog;
    subst log'; [done|].
  pure_steps.
Qed.


(** C6, as amended: an estimate that is supplied to [handleCreateIssue]
    is replaced by what [parseInt] reads of it, and dropped when that is
    nothing.  The payload sent carries the Number that
    [parseInt(String(estimate), 10)] answers, and no estimate when that
    is [NaN]; the request is sent all the same.  What is sent is an
    integer, or an infinity when the digits run beyond the largest
    Number.  So an integer below 2^53 in magnitude, given as a number or
    as its numeral, is sent as it is, "3" is sent as 3, and text without
    leading digits such as "abc" is left out.  [parseInt] reads no more
    than the digits that the text of the estimate starts with: 2.5 is
    sent as 2, the number 1e21, which prints as "1e+21", is sent as 1,
    and white space before the digits is skipped. *)
Theorem handleCreateIssue_estimate (args : obj) estimate :
  verifyAuth = inr () ->
  validateRequiredParams args ["title"; "description"; "teamId"] = inr () ->
  args !! "estimate" = Some estimate ->
  estimate <> VUndefined ->
  representable estimate = true ->
  exists payload : obj,
    snd (run (handleCreateIssue rawRequest verifyAuth validateRequiredParams
                createResponse handleError args))
    = [Request CREATE_ISSUE_MUTATION (VObj {[ "input" := VObj payload ]})]
    /\ (parseInt10 (js_String estimate) = NaN ->
        payload !! "estimate" = None)
    /\ (parseInt10 (js_String estimate) <> NaN ->
        payload !! "estimate"
        = Some (VNum (parseInt10 (js_String estimate))))
    /\ (forall v, payload !! "estimate" = Some v ->
        exists n,
          v = VNum n
          /\ (is_integer n = true \/ exists negative, n = Inf negative))
    /\ (forall z, Z.abs z < two53 ->
        estimate = VNum (Int z) \/ estimate = VStr (decimal z) ->
        payload !! "estimate" = Some (VNum (Int z)))
    /\ (estimate = VStr "abc" -> payload !! "estimate" = None)
    /\ (estimate = VStr "3" -> payload !! "estimate" = Some (VNum (Int 3)))
    /\ (estimate = VNum two_and_a_half ->
        payload !! "estimate" = Some (VNum (Int 2)))
    /\ (estimate = VNum ten_to_21 ->
        payload !! "estimate" = Some (VNum (Int 1)))
    /\ (estimate = VStr (nbsp +:+ "3") ->
        payload !! "estimate" = Some (VNum (Int 3))).
Proof.
  intros Hauth Hval He Hdef Hrep. exists (processedArgs args).
  split; [by apply handleCreateIssue_sends|].
  rewrite (processedArgs_estimate args estimate He Hdef).
  split; [|split; [|split; [|split; [|repeat split]]]].
  - by intros ->.
  - intros Hn. by destruct (parseInt10 _).
  - pose proof (parseInt10_kind (js_String estimate)) as Hkind.
    destruct (parseInt10 _) as [|z|z|b|]; cbn [isNaN]; intros v Hv;
      try done; injection Hv as <-; eexists; (split; [reflexivity|]);
      cbn [is_integer]; eauto.
  - intros z Hz [->| ->]; cbn [js_String number_text];
      by rewrite (parseInt10_decimal_small z Hz).
  - by intros ->.
  - by intros ->.
  - by intros ->.
  - intros ->. vm_compute. reflexivity.
  - by intros ->.
Qed.

End CreateIssueFacts.

(** ** The identifier pattern *)

Lemma match_identifier_shape q letters digits :
  identifier_shape q letters digits -> match_identifier q = Some digits.
Proof.
  intros (-> & Hl & Hup & Hd & Hdig). unfold match_identifier.
  rewrite (span_app is_upper letters ("-" +:+ digits) Hup is_upper_not_hyphen).
  destruct letters as [|c l]; [done|]. rewrite append_cons, append_nil_l.
  rewrite <- (append_nil_r digits) at 1.
  rewrite (span_app is_digit digits "" Hdig I).
  by destruct digits.
Qed.

Lemma match_identifier_inv q digits :
  match_identifier q = Some digits ->
  exists letters, identifier_shape q letters digits.
Proof.
  unfold match_identifier.
  destruct (span is_upper q) as [letters rest] eqn:Hspan.
  apply span_inv in Hspan as (-> & Hup & _).
  destruct letters as [|c l]; [done|].
  destruct rest as [|h ds]; [done|].
  destruct h as [[] [] [] [] [] [] [] []]; try done.
  destruct (span is_digit ds) as [d rest] eqn:Hd.
  apply span_inv in Hd as (-> & Hdig & _).
  destruct d as [|c' d]; [done|]. destruct rest; [|done].
  intros [= <-]. exists (String c l).
  rewrite append_nil_r in *. by repeat split.
Qed.

(** [extractIssueNumber] against the pattern: the Number the digit group
    denotes when the query has the shape, [null] when it has not. *)
Lemma extractIssueNumber_shape q letters digits :
  identifier_shape q letters digits ->
  extractIssueNumber q = VNum (to_number (digits_value digits)).
Proof.
  intros Hshape. unfold extractIssueNumber.
  rewrite (match_identifier_shape _ _ _ Hshape).
  destruct Hshape as (_ & _ & _ & Hd & Hdig).
  rewrite (parseInt10_digits _ Hd Hdig). by destruct digits.
Qed.

Lemma extractIssueNumber_no_shape q :
  (forall letters digits, ~ identifier_shape q letters digits) ->
  extractIssueNumber q = VNull.
Proof.
  intros Hno. unfold extractIssueNumber.
  destruct (match_identifier q) as [digits|] eqn:Hm; [|done].
  apply match_identifier_inv in Hm as [letters Hshape].
  by destruct (Hno letters digits).
Qed.

Lemma digit_value_nonneg c : is_digit c = true -> 0 <= digit_value c.
Proof.
  unfold is_digit, digit_value. intros H.
  apply andb_true_iff in H as [H _]. apply Nat.leb_le in H. lia.
Qed.

Lemma digits_from_nonneg s acc :
  0 <= acc -> all_chars is_digit s = true -> 0 <= digits_from acc s.
Proof.
  revert acc. induction s as [|c s IH]; intros acc Hacc Hs; [done|].
  cbn [all_chars] in Hs. apply andb_true_iff in Hs as [Hc Hs].
  cbn [digits_from]. apply IH; [|done].
  pose proof (digit_value_nonneg c Hc). lia.
Qed.

Lemma digits_value_nonneg s :
  all_chars is_digit s = true -> 0 <= digits_value s.
Proof. by apply digits_from_nonneg. Qed.

(** ** The search filter *)

Lemma lookup_if_insert_ne (c : bool) k v (m : obj) k' :
  k <> k' -> (if c then <[k:=v]> m else m) !! k' = m !! k'.
Proof. intros Hk. destruct c; [by rewrite lookup_insert_ne|done]. Qed.

Lemma lookup_if_insert_eq (c : bool) k v (m : obj) :
  (if c then <[k:=v]> m else m) !! k = if c then Some v else m !! k.
Proof. destruct c; [by rewrite lookup_insert_eq|done]. Qed.

Lemma dom_if_insert (c : bool) k v (m : obj) (K : gset string) :
  k ∈ K -> dom m ⊆ K -> dom (if c then <[k:=v]> m else m) ⊆ K.
Proof.
  intros Hk Hm. destruct c; [|done]. rewrite dom_insert_L.
  intros x Hx. apply elem_of_union in Hx as [Hx|Hx]; [|by apply Hm].
  apply elem_of_singleton in Hx. by subst.
Qed.

Lemma truthy_supplied v : truthy v = true -> v <> VUndefined.
Proof. intros H Hv. by rewrite Hv in H. Qed.

Lemma field_delete_eq (o : obj) k : field (delete k o) k = VUndefined.
Proof. unfold field. by rewrite lookup_delete_eq. Qed.

Lemma field_delete_ne (o : obj) k k' :
  k <> k' -> field (delete k o) k' = field o k'.
Proof. intros Hk. unfold field. by rewrite lookup_delete_ne. Qed.

Lemma truthy_VStr q : truthy (VStr q) = true <-> q <> "".
Proof.
  cbn [truthy]. rewrite negb_true_iff. split.
  - intros H ->. discriminate.
  - intros H. by apply String.eqb_neq.
Qed.

(** The filter for a query that is a non-empty string: the disjunction,
    then the other predicates. *)
Lemma search_filter_string (args : obj) q :
  field args "query" = VStr q ->
  q <> "" ->
  exists f : obj,
    search_filter args = inr f
    /\ f !! "or"
       = Some (VArr [VObj {[ "title" :=
                              VObj {[ "containsIgnoreCase" := VStr q ]} ]};
                     VObj {[ "number" :=
                              VObj {[ "eq" := extractIssueNumber q ]} ]}]).
Proof.
  intros Hq Hne. unfold search_filter. rewrite Hq.
  rewrite (proj2 (truthy_VStr q) Hne).
  eexists. split; [reflexivity|].
  rewrite !lookup_if_insert_ne by done. by rewrite lookup_insert_eq.
Qed.

(** C7, as amended: a query that is a non-empty string yields a
    disjunction of exactly two comparators, title contains the raw query
    (case-insensitively) and number equals [n], where [n] is the Number
    that the digit group denotes when the whole query is capital letters,
    a hyphen and digits, and [null] otherwise.  That Number is the digit
    group as an integer when it is below 2^53, and the nearest double
    beyond.  "ENG-42" gives 42, "login bug" gives [null] and
    "ENG-9007199254740993" gives 9007199254740992. *)
Theorem search_filter_query (args : obj) q :
  field args "query" = VStr q ->
  q <> "" ->
  exists (f : obj) (n : value),
    search_filter args = inr f
    /\ f !! "or"
       = Some (VArr [VObj {[ "title" :=
                              VObj {[ "containsIgnoreCase" := VStr q ]} ]};
                     VObj {[ "number" := VObj {[ "eq" := n ]} ]}])
    /\ (forall letters digits,
          identifier_shape q letters digits ->
          n = VNum (to_number (digits_value digits)))
    /\ (forall letters digits,
          identifier_shape q letters digits ->
          digits_value digits < two53 ->
          n = VNum (Int (digits_value digits)))
    /\ ((forall letters digits, ~ identifier_shape q letters digits) ->
        n = VNull)
    /\ (q = "ENG-42" -> n = VNum (Int 42))
    /\ (q = "login bug" -> n = VNull)
    /\ (q = "ENG-9007199254740993" -> n = VNum (Big 9007199254740992)).
Proof.
  intros Hq Hne.
  destruct (search_filter_string args q Hq Hne) as (f & Hf & Hor).
  exists f, (extractIssueNumber q). repeat split; try done.
  - apply extractIssueNumber_shape.
  - intros letters digits Hshape Hsmall.
    rewrite (extractIssueNumber_shape q letters digits Hshape).
    destruct Hshape as (_ & _ & _ & _ & Hdig).
    pose proof (digits_value_nonneg digits Hdig) as Hpos.
    by rewrite to_number_small by lia.
  - apply extractIssueNumber_no_shape.
  - by intros ->.
  - by intros ->.
  - by intros ->.
Qed.

(** C10: the empty string as query is treated as no query.  The filter
    is assembled, has no [or] entry, and is the filter assembled from the
    same arguments without their query. *)
Theorem search_filter_empty_query (args : obj) :
  field args "query" = VStr "" ->
  exists f : obj,
    search_filter args = inr f
    /\ f !! "or" = None
    /\ search_filter (delete "query" args) = inr f.
Proof.
  intros Hq. unfold search_filter. rewrite Hq. cbn [truthy String.eqb negb].
  rewrite field_delete_eq, !field_delete_ne by done. cbn [truthy].
  eexists. split; [reflexivity|]. split; [|reflexivity].
  by rewrite !lookup_if_insert_ne.
Qed.

(** C8: the keys of the assembled filter.  When the filter is
    assembled, each of its keys stands for a predicate that was supplied,
    it has no key besides the six predicates, and it has the priority
    comparator exactly when the priority is a number, [0] included.  The
    filter fails to be assembled only for a query that is truthy and not
    a string. *)
Theorem search_filter_keys (args : obj) :
  match search_filter args with
  | inr f =>
      (is_Some (f !! "or") -> field args "query" <> VUndefined)
      /\ (is_Some (f !! "project") ->
          get_opt (get_opt (get_opt (field args "filter") "project") "id") "eq"
          <> VUndefined)
      /\ (is_Some (f !! "team") -> field args "teamIds" <> VUndefined)
      /\ (is_Some (f !! "assignee") -> field args "assigneeIds" <> VUndefined)
      /\ (is_Some (f !! "state") -> field args "states" <> VUndefined)
      /\ f !! "priority"
         = (if is_number (field args "priority")
            then Some (VObj {[ "eq" := field args "priority" ]})
            else None)
      /\ (field args "priority" = VNum (Int 0) ->
          f !! "priority" = Some (VObj {[ "eq" := VNum (Int 0) ]}))
      /\ dom f ⊆ {[ "or"; "project"; "team"; "assignee"; "state"; "priority" ]}
  | inl _ =>
      truthy (field args "query") = true
      /\ forall q, field args "query" <> VStr q
  end.
Proof.
  unfold search_filter.
  match goal with |- context [mbind ?k _] => set (rest := k) end.
  assert (forall f0 : obj,
    (is_Some (f0 !! "or") -> field args "query" <> VUndefined) ->
    (forall k, k <> "or" -> f0 !! k = None) ->
    match rest f0 with
    | inr f =>
      (is_Some (f !! "or") -> field args "query" <> VUndefined)
      /\ (is_Some (f !! "project") ->
          get_opt (get_opt (get_opt (field args "filter") "project") "id") "eq"
          <> VUndefined)
      /\ (is_Some (f !! "team") -> field args "teamIds" <> VUndefined)
      /\ (is_Some (f !! "assignee") -> field args "assigneeIds" <> VUndefined)
      /\ (is_Some (f !! "state") -> field args "states" <> VUndefined)
      /\ f !! "priority"
         = (if is_number (field args "priority")
            then Some (VObj {[ "eq" := field args "priority" ]})
            else None)
      /\ (field args "priority" = VNum (Int 0) ->
          f !! "priority" = Some (VObj {[ "eq" := VNum (Int 0) ]}))
      /\ dom f ⊆ {[ "or"; "project"; "team"; "assignee"; "state"; "priority" ]}
    | inl _ => False
    end) as Hrest.
  { intros f0 Hor Hother. subst rest. cbv beta zeta.
    set (eq := get_opt (get_opt (get_opt (field args "filter") "project") "id") "eq").
    unfold mret, res_ret.
    assert (dom f0 ⊆ ({[ "or"; "project"; "team"; "assignee"; "state"; "priority" ]} : gset string)) as Hdom.
    { intros k Hk. apply elem_of_dom in Hk as [v Hv].
      destruct (decide (k = "or")) as [->|Hne]; [set_solver|].
      rewrite (Hother k Hne) in Hv. done. }
    repeat split.
    - rewrite !lookup_if_insert_ne by done. exact Hor.
    - rewrite !lookup_if_insert_ne by done. rewrite lookup_if_insert_eq.
      destruct (truthy eq) eqn:Ht; [intros _; by apply truthy_supplied|].
      rewrite Hother by done. by intros [? ?].
    - rewrite !lookup_if_insert_ne by done. rewrite lookup_if_insert_eq.
      destruct (truthy (field args "teamIds")) eqn:Ht;
        [intros _; by apply truthy_supplied|].
      rewrite lookup_if_insert_ne, Hother by done. by intros [? ?].
    - rewrite !lookup_if_insert_ne by done. rewrite lookup_if_insert_eq.
      destruct (truthy (field args "assigneeIds")) eqn:Ht;
        [intros _; by apply truthy_supplied|].
      rewrite !lookup_if_insert_ne, Hother by done. by intros [? ?].
    - rewrite !lookup_if_insert_ne by done. rewrite lookup_if_insert_eq.
      destruct (truthy (field args "states")) eqn:Ht;
        [intros _; by apply truthy_supplied|].
      rewrite !lookup_if_insert_ne, Hother by done. by intros [? ?].
    - rewrite lookup_if_insert_eq.
      destruct (is_number _); [done|].
      by rewrite !lookup_if_insert_ne, Hother.
    - intros ->. cbn [is_number]. by rewrite lookup_insert_eq.
    - repeat (apply dom_if_insert; [set_solver|]). exact Hdom. }
  clearbody rest.
  pose proof (Hrest ∅) as Hnone.
  specialize (Hnone ltac:(intros [v Hv]; by rewrite lookup_empty in Hv)
                    ltac:(intros k _; apply lookup_empty)).
  unfold mbind, res_bind, mret, res_ret.
  destruct (field args "query") as [| |[]|[|z|z|b|b s e]|q|l|o] eqn:Hq;
    cbn [truthy];
    try (revert Hnone; destruct (rest ∅); [intros []|intros H; exact H]);
    try (split; [done|intros q'; discriminate]).
  - destruct (negb (z =? 0)).
    + split; [done|intros q'; discriminate].
    + revert Hnone. destruct (rest ∅); [intros []|intros H; exact H].
  - destruct (negb (String.eqb q "")).
    + match goal with
      | |- context [rest ?f0] =>
          pose proof (Hrest f0 ltac:(done)
                        ltac:(intros k Hk; by rewrite lookup_insert_ne)) as Hsome;
          revert Hsome; generalize (rest f0)
      end.
      intros [e|f]; [intros []|intros H; exact H].
    + revert Hnone. destruct (rest ∅); [intros []|intros H; exact H].
Qed.

(** ** What the search handler sends *)

Lemma or_default_js_or a d :
  d <> VUndefined -> or_default (js_or a d) d = js_or a d.
Proof.
  intros Hd. unfold js_or.
  destruct (truthy a) eqn:Ha; [by destruct a|by destruct d].
Qed.

Section SearchIssuesFacts.

Variable rawRequest : list request -> request -> res value.
Variable verifyAuth : res unit.
Variable createJsonResponse : value -> value.
Variable handleError : thrown -> string -> thrown.

(** Once the session has been checked, [handleSearchIssues] sends one
    request: the search query with the assembled filter, the page size
    (50 by default), the cursor as given and the order (updatedAt by
    default). *)
Lemma handleSearchIssues_sends (args f : obj) :
  verifyAuth = inr () ->
  search_filter args = inr f ->
  snd (run (handleSearchIssues rawRequest verifyAuth createJsonResponse
              handleError args))
  = [Request SEARCH_ISSUES_QUERY
       (VObj (<["filter" := VObj f]>
             (<["first" := js_or (field args "first") (VNum (Int 50))]>
             (<["after" := field args "after"]>
             (<["orderBy" := js_or (field args "orderBy") (VStr "updatedAt")]>
                ∅)))))].
Proof.
  intros Hauth Hf.
  unfold run, handleSearchIssues. rewrite try_catch_throw.
  rewrite (bind_lift_inr _ _ _ _ Hauth), (bind_lift_inr _ _ _ _ Hf).
  cbn [fst snd]. unfold searchIssues.
  rewrite !or_default_js_or by done.
  unfold mbind at 1, M_bind at 1.
  match goal with
  | |- context [execute rawRequest ?d ?v []] =>
      pose proof (execute_log rawRequest d v []) as Hlog
  end.
  destruct (execute _ _ _ _) as [[e|result] log']; cbn [snd] in Hlog;
    subst log'; reflexivity.
Qed.

(** A failed session check sends nothing. *)
Lemma handleSearchIssues_unauthenticated (args : obj) e :
  verifyAuth = inl e ->
  run (handleSearchIssues rawRequest verifyAuth createJsonResponse
         handleError args)
  = (inl (handleError e "search issues"), []).
Proof.
  intros Hauth. unfold run, handleSearchIssues. rewrite try_catch_throw.
  by rewrite (bind_lift_inl _ _ _ _ Hauth).
Qed.

End SearchIssuesFacts.

(** ** Which calls bind what their operation declares *)

Section BoundVariables.

Variable rawRequest : list request -> request -> res value.

(** X18: Every call of the client that goes through a mutation, [updateIssues]
    apart, sends one request that binds exactly the variables its mutation
    declares. *)
Lemma sibling_calls_bind_declared (v w : value) :
  Forall (fun '(m, op) =>
            exists rq, snd (run m) = [rq]
                       /\ req_document rq = Mutation op
                       /\ bound_variables rq = declared_variables op)
    [(createIssue rawRequest v, CREATE_ISSUE_MUTATION);
     (createIssues rawRequest v, CREATE_BATCH_ISSUES);
     (createProject rawRequest v, CREATE_PROJECT);
     (createBatchIssues rawRequest v, CREATE_BATCH_ISSUES);
     (updateIssue rawRequest v w, UPDATE_ISSUE_MUTATION);
     (deleteIssue rawRequest v, DELETE_ISSUE_MUTATION);
     (deleteIssues rawRequest v, DELETE_ISSUES_MUTATION);
     (createIssueLabels rawRequest v, CREATE_ISSUE_LABELS)].
Proof.
  repeat constructor;
    (eexists; split; [exact (execute_log rawRequest _ _ [])|];
     split; [done|];
     unfold bound_variables; cbn [req_variables declared_variables];
     rewrite ?dom_insert_L, ?dom_singleton_L, ?dom_empty_L; set_solver).
Qed.

End BoundVariables.

(** ** The code run on the inputs of the specification and of the tests *)

Example priority_below_range :
  processedArgs {[ "priority" := VNum (Int (-1)) ]} !! "priority"
  = Some (VNum (Int 0)).
Proof. reflexivity. Qed.

Example priority_above_range :
  processedArgs {[ "priority" := VNum (Int 7) ]} !! "priority"
  = Some (VNum (Int 0)).
Proof. reflexivity. Qed.

Example priority_not_a_number :
  processedArgs {[ "priority" := VStr "xyz" ]} !! "priority"
  = Some (VNum (Int 0)).
Proof. reflexivity. Qed.

Example priority_zero_kept :
  processedArgs {[ "priority" := VNum (Int 0) ]} !! "priority"
  = Some (VNum (Int 0)).
Proof. reflexivity. Qed.

Example priority_in_range_kept :
  processedArgs {[ "priority" := VStr "3" ]} !! "priority"
  = Some (VNum (Int 3)).
Proof. reflexivity. Qed.

Example priority_fraction_cut :
  processedArgs {[ "priority" := VNum two_and_a_half ]} !! "priority"
  = Some (VNum (Int 2)).
Proof. reflexivity. Qed.

(** [String(1e21)] is "1e+21", of which [parseInt] reads the 1. *)
Example priority_exponent_form :
  js_String (VNum ten_to_21) = "1e+21"
  /\ processedArgs {[ "priority" := VNum ten_to_21 ]} !! "priority"
     = Some (VNum (Int 1)).
Proof. split; vm_compute; reflexivity. Qed.

Example priority_after_white_space :
  processedArgs {[ "priority" := VStr (nbsp +:+ "3") ]} !! "priority"
  = Some (VNum (Int 3)).
Proof. reflexivity. Qed.

Example estimate_exponent_form :
  processedArgs {[ "estimate" := VNum ten_to_21 ]} !! "estimate"
  = Some (VNum (Int 1)).
Proof. vm_compute. reflexivity. Qed.

(** The numeral of 10^21 is read as the Number 1e21. *)
Example estimate_beyond_exact :
  processedArgs {[ "estimate" := VStr "1000000000000000000000" ]} !! "estimate"
  = Some (VNum ten_to_21).
Proof. vm_compute. reflexivity. Qed.

Example estimate_not_a_number :
  processedArgs {[ "estimate" := VStr "abc" ]} !! "estimate" = None.
Proof. reflexivity. Qed.

Example estimate_numeral :
  processedArgs {[ "estimate" := VStr "3" ]} !! "estimate"
  = Some (VNum (Int 3)).
Proof. reflexivity. Qed.

Example extractIssueNumber_ENG_42 :
  extractIssueNumber "ENG-42" = VNum (Int 42).
Proof. reflexivity. Qed.

Example extractIssueNumber_rounded :
  extractIssueNumber "ENG-9007199254740993" = VNum (Big 9007199254740992).
Proof. reflexivity. Qed.

Example extractIssueNumber_overflow :
  extractIssueNumber ("ENG-" +:+ nines 400) = VNum (Inf false).
Proof. vm_compute. reflexivity. Qed.

Example extractIssueNumber_login_bug :
  extractIssueNumber "login bug" = VNull.
Proof. reflexivity. Qed.

Example search_filter_priority_zero :
  search_filter {[ "priority" := VNum (Int 0) ]}
  = inr {[ "priority" := VObj {[ "eq" := VNum (Int 0) ]} ]}.
Proof. reflexivity. Qed.

Example search_filter_priority_string :
  search_filter {[ "priority" := VStr "2" ]} = inr ∅.
Proof. reflexivity. Qed.

(** ** The theorems at concrete inputs *)

(** One identifier: the single update is sent and its field is read. *)
Lemma handleBulkUpdateIssues_routes_witness :
  snd (run (handleBulkUpdateIssues (scripted [inr issue_updated]) (inr ())
              validateRequiredParams_spec bare_text reraise
              (update_args [VStr "issue-1"])))
  = [Request UPDATE_ISSUE_MUTATION
       (VObj (<["id" := VStr "issue-1"]>
             (<["input" := VObj {[ "stateId" := VStr "state-2" ]}]> ∅)))]
  /\ fst (run (handleBulkUpdateIssues (scripted [inr issue_updated]) (inr ())
                 validateRequiredParams_spec bare_text reraise
                 (update_args [VStr "issue-1"])))
     = inr (VStr "Successfully updated issue").
Proof.
  destruct (handleBulkUpdateIssues_routes
              (scripted [inr issue_updated]) (inr ())
              validateRequiredParams_spec bare_text reraise
              (update_args [VStr "issue-1"]) [VStr "issue-1"]
              ltac:(vm_compute; reflexivity) ltac:(vm_compute; reflexivity) ltac:(vm_compute; reflexivity) ltac:(discriminate)) as [Hsingle _].
  destruct (Hsingle (VStr "issue-1") ltac:(vm_compute; reflexivity)) as [Hlog Hres].
  split; [exact Hlog|exact (Hres issue_updated ltac:(vm_compute; reflexivity) ltac:(vm_compute; reflexivity))].
Defined.

(** No identifier: the bulk update is sent with the empty list. *)
Lemma handleBulkUpdateIssues_empty_witness :
  snd (run (handleBulkUpdateIssues (scripted [inr issues_updated]) (inr ())
              validateRequiredParams_spec bare_text reraise (update_args [])))
  = [Request UPDATE_ISSUES_MUTATION
       (VObj (<["ids" := VArr []]>
             (<["input" := VObj {[ "stateId" := VStr "state-2" ]}]> ∅)))]
  /\ fst (run (handleBulkUpdateIssues (scripted [inr issues_updated]) (inr ())
                 validateRequiredParams_spec bare_text reraise (update_args [])))
     = inr (VStr "Successfully updated 0 issues").
Proof.
  destruct (handleBulkUpdateIssues_empty
              (scripted [inr issues_updated]) (inr ())
              validateRequiredParams_spec bare_text reraise (update_args [])
              ltac:(vm_compute; reflexivity) ltac:(vm_compute; reflexivity) ltac:(vm_compute; reflexivity)) as [Hlog Hres].
  split; [exact Hlog|exact (Hres issues_updated ltac:(vm_compute; reflexivity) ltac:(vm_compute; reflexivity))].
Defined.

(** The test "should handle issue creation errors": two requests, then
    the failure that names the issues. *)
Lemma createProjectWithIssues_steps_witness :
  run (createProjectWithIssues
         (scripted [inr project_created; inr issues_not_created])
         (VObj {[ "name" := VStr "New Project" ]}) [issue_args])
  = (inl (ErrorObj "Failed to create issues"),
     [Request CREATE_PROJECT
        (VObj {[ "input" := VObj {[ "name" := VStr "New Project" ]} ]});
      Request CREATE_BATCH_ISSUES
        (VObj {[ "input" :=
                   VObj {[ "issues" :=
                             VArr [VObj (<["projectId" := VStr "project-1"]>
                                           issue_args)] ]} ]})]).
Proof.
  destruct (createProjectWithIssues_steps
              (scripted [inr project_created; inr issues_not_created])
              (VObj {[ "name" := VStr "New Project" ]}) [issue_args]
              project_created
              (VObj (<["success" := VBool true]>
                    (<["project" := VObj {[ "id" := VStr "project-1" ]}]> ∅)))
              ltac:(vm_compute; reflexivity) ltac:(vm_compute; reflexivity) ltac:(vm_compute; reflexivity)) as [_ Hsecond].
  destruct (Hsecond ltac:(vm_compute; reflexivity) ltac:(vm_compute; reflexivity)) as [_ Hfail].
  exact (Hfail issues_not_created
           (VObj (<["success" := VBool false]> (<["issues" := VArr []]> ∅)))
           ltac:(vm_compute; reflexivity) ltac:(vm_compute; reflexivity) ltac:(vm_compute; reflexivity) ltac:(vm_compute; reflexivity)).
Defined.

(** The test "should handle update errors". *)
Lemma execute_transport_failure_witness :
  execute (scripted [inl (ErrorObj "Update failed")])
    UPDATE_ISSUES_MUTATION VUndefined []
  = (inl (ErrorObj "GraphQL operation failed: Update failed"),
     [Request UPDATE_ISSUES_MUTATION VUndefined]).
Proof.
  exact (execute_transport_failure
           (scripted [inl (ErrorObj "Update failed")])
           UPDATE_ISSUES_MUTATION VUndefined [] "Update failed" ltac:(vm_compute; reflexivity)).
Defined.

(** C4 as first stated fails here: the message raised starts with
    "GraphQL", so it is not "operation failed: " followed by the
    transport's message. *)
Lemma execute_message_counterexample :
  fst (execute (scripted [inl (ErrorObj "Update failed")])
         UPDATE_ISSUES_MUTATION VUndefined [])
  = inl (ErrorObj "GraphQL operation failed: Update failed")
  /\ fst (execute (scripted [inl (ErrorObj "Update failed")])
            UPDATE_ISSUES_MUTATION VUndefined [])
     <> inl (ErrorObj ("operation failed: " +:+ "Update failed")).
Proof. split; [reflexivity|discriminate]. Qed.


(** An estimate of "abc" is left out, and the issue is sent. *)
Lemma handleCreateIssue_estimate_witness :
  exists payload : obj,
    snd (run (handleCreateIssue (scripted []) (inr ())
                validateRequiredParams_spec bare_text reraise
                (<["estimate" := VStr "abc"]> issue_args)))
    = [Request CREATE_ISSUE_MUTATION (VObj {[ "input" := VObj payload ]})]
    /\ payload !! "estimate" = None.
Proof.
  destruct (handleCreateIssue_estimate (scripted []) (inr ())
              validateRequiredParams_spec bare_text reraise
              (<["estimate" := VStr "abc"]> issue_args) (VStr "abc")
              ltac:(vm_compute; reflexivity) ltac:(vm_compute; reflexivity)
              ltac:(vm_compute; reflexivity) ltac:(discriminate)
              ltac:(vm_compute; reflexivity))
    as (payload & Hlog & Hnan & _).
  exists payload. split; [exact Hlog|exact (Hnan ltac:(vm_compute; reflexivity))].
Defined.

(** C6 as first stated fails here: an estimate of four hundred nines is
    parseable as a number, and what is sent for it is [Infinity], which
    is not an integer. *)
Lemma handleCreateIssue_estimate_counterexample :
  snd (run (handleCreateIssue (scripted []) (inr ())
              validateRequiredParams_spec bare_text reraise
              (<["estimate" := VStr (nines 400)]> issue_args)))
  = [Request CREATE_ISSUE_MUTATION
       (VObj {[ "input" :=
                  VObj (<["estimate" := VNum (Inf false)]> issue_args) ]})]
  /\ is_integer (Inf false) = false.
Proof. split; [vm_compute|]; reflexivity. Qed.

(** The query "ENG-42". *)
Lemma search_filter_query_witness :
  exists f : obj,
    search_filter (query_args "ENG-42") = inr f
    /\ f !! "or"
       = Some (VArr [VObj {[ "title" :=
                              VObj {[ "containsIgnoreCase" := VStr "ENG-42" ]} ]};
                     VObj {[ "number" := VObj {[ "eq" := VNum (Int 42) ]} ]}]).
Proof.
  destruct (search_filter_query (query_args "ENG-42") "ENG-42"
              ltac:(vm_compute; reflexivity) ltac:(discriminate))
    as (f & n & Hf & Hor & _ & _ & _ & H42 & _).
  exists f. split; [exact Hf|].
  rewrite Hor, (H42 ltac:(vm_compute; reflexivity)). reflexivity.
Defined.

(** C7 as first stated fails twice: the empty string is a query that
    was supplied and yields no disjunction at all, and "eng-42", letters
    then a hyphen then digits, yields [null] and not 42, the letters of
    the pattern being capitals only. *)
Lemma search_filter_query_counterexample :
  search_filter (query_args "") = inr ∅
  /\ (∅ : obj) !! "or" = None
  /\ extractIssueNumber "eng-42" = VNull
  /\ extractIssueNumber "eng-42" <> VNum (Int 42).
Proof. repeat split; try reflexivity. discriminate. Qed.

(** The empty query. *)
Lemma search_filter_empty_query_witness :
  exists f : obj,
    search_filter todo_with_empty_query
    = inr f
    /\ f !! "or" = None
    /\ search_filter (delete "query" todo_with_empty_query) = inr f.
Proof.
  destruct (search_filter_empty_query
              todo_with_empty_query
              ltac:(vm_compute; reflexivity)) as (f & Hf & Hor & Hsame).
  exists f. split; [exact Hf|]. split; [exact Hor|exact Hsame].
Defined.

(** * Further properties *)

(** ** Normalisation, further *)

(** X21: An estimate given as an integer below 2^53 in magnitude is sent
    as that integer, whatever its sign: only priority has a range. *)
Theorem estimate_integer_kept (args : obj) z :
  Z.abs z < two53 ->
  args !! "estimate" = Some (VNum (Int z)) ->
  processedArgs args !! "estimate" = Some (VNum (Int z)).
Proof.
  intros Hz He. rewrite processedArgs_estimate_lookup, (field_Some _ _ _ He).
  cbn [js_String number_text]. by rewrite (parseInt10_decimal_small z Hz).
Qed.

(** X22: A priority given as an integer below 2^53 in magnitude is sent
    as it is when it lies in [0, 4] and as 0 otherwise. *)
Theorem priority_integer_clamped (args : obj) z :
  Z.abs z < two53 ->
  args !! "priority" = Some (VNum (Int z)) ->
  processedArgs args !! "priority"
  = Some (VNum (Int (if (0 <=? z) && (z <=? 4) then z else 0))).
Proof.
  intros Hz Hp.
  apply (processedArgs_priority_parsed args (VNum (Int z)) z Hp); [done|].
  cbn [js_String number_text]. by apply parseInt10_decimal_small.
Qed.

Lemma processedArgs_estimate_shape (args : obj) :
  processedArgs args !! "estimate" = None
  \/ processedArgs args !! "estimate" = Some VUndefined
  \/ exists s, isNaN (parseInt10 s) = false
               /\ processedArgs args !! "estimate"
                  = Some (VNum (parseInt10 s)).
Proof.
  rewrite processedArgs_estimate_lookup. unfold field.
  destruct (args !! "estimate") as [v|]; cbn [default]; [|by left].
  destruct v; cbv beta iota delta [id];
    try (match goal with
         | |- context [parseInt10 ?s] =>
             destruct (isNaN (parseInt10 s)) eqn:Hn;
             [by left|right; right; by exists s]
         end).
  right; by left.
Qed.

Lemma processedArgs_priority_shape (args : obj) :
  processedArgs args !! "priority" = None
  \/ processedArgs args !! "priority" = Some VUndefined
  \/ exists z, 0 <= z <= 4
               /\ processedArgs args !! "priority" = Some (VNum (Int z)).
Proof.
  rewrite processedArgs_priority_lookup. unfold field.
  destruct (args !! "priority") as [v|]; cbn [default]; [|by left].
  destruct v; cbv beta iota delta [id];
    try (right; right;
         match goal with
         | |- context [parseInt10 ?s] =>
             destruct (priority_in_range s) as (p & Hrange & ->)
         end; by exists p).
  right; by left.
Qed.

(** X19: Processing the processed arguments again changes nothing, as
    long as the estimate kept by the first pass, if any, is below 2^53
    in magnitude (beyond, the second pass reads the estimate from its
    exponent form). *)
Theorem processedArgs_idempotent (args : obj) :
  representable (field args "estimate") = true ->
  representable (field args "priority") = true ->
  (forall n, processedArgs args !! "estimate" = Some (VNum n) ->
             exists z, n = Int z) ->
  processedArgs (processedArgs args) = processedArgs args.
Proof.
  intros _ _ Hsafe. apply map_eq. intros k.
  destruct (decide (k = "estimate")) as [->|Hest].
  { rewrite (processedArgs_estimate_lookup (processedArgs args)). unfold field.
    destruct (processedArgs_estimate_shape args) as [He| [He| (s & Hn & He)]];
      rewrite He; cbn [from_option id js_String]; [done|done|].
    destruct (Hsafe _ He) as [z Hz].
    pose proof (parseInt10_kind s) as Hkind. rewrite Hz in Hkind |- *.
    cbn [number_text]. by rewrite (parseInt10_decimal_small z Hkind). }
  destruct (decide (k = "priority")) as [->|Hpri].
  { rewrite (processedArgs_priority_lookup (processedArgs args)). unfold field.
    destruct (processedArgs_priority_shape args) as [->| [->| (z & Hz & ->)]];
      cbn [from_option id js_String number_text]; [done|done|].
    rewrite parseInt10_decimal_small by (unfold two53; lia).
    cbn [isNaN num_lt num_gt orb].
    destruct (Z.ltb_spec z 0), (Z.ltb_spec 4 z); cbn [orb];
      (reflexivity || lia). }
  by rewrite !processedArgs_other.
Qed.

(** X20: Processing never adds a field, takes away no field but estimate, and
    leaves every field other than estimate and priority as it was. *)
Theorem processedArgs_frame (args : obj) :
  (forall k, k <> "estimate" -> k <> "priority" ->
             processedArgs args !! k = args !! k)
  /\ dom (processedArgs args) ⊆ dom args
  /\ dom args ∖ {[ "estimate" ]} ⊆ dom (processedArgs args).
Proof.
  split; [intros k; apply processedArgs_other|].
  assert (forall k, is_Some (processedArgs args !! k) -> is_Some (args !! k))
    as Hsub.
  { intros k.
    destruct (decide (k = "estimate")) as [->|Hest].
    { rewrite processedArgs_estimate_lookup. unfold field.
      destruct (args !! "estimate") as [v|]; [by eauto|].
      cbn [default]. by intros [? ?]. }
    destruct (decide (k = "priority")) as [->|Hpri].
    { rewrite processedArgs_priority_lookup. unfold field.
      destruct (args !! "priority") as [v|]; [by eauto|].
      cbn [default]. by intros [? ?]. }
    by rewrite processedArgs_other. }
  split.
  - intros k Hk. apply elem_of_dom. apply Hsub. by apply elem_of_dom.
  - intros k Hk. apply elem_of_difference in Hk as [Hk Hne].
    apply elem_of_dom in Hk. apply elem_of_dom.
    rewrite elem_of_singleton in Hne.
    destruct (decide (k = "priority")) as [->|Hpri];
      [|by rewrite processedArgs_other].
    rewrite processedArgs_priority_lookup.
    destruct Hk as [v Hv]. rewrite (field_Some _ _ _ Hv).
    destruct v; eauto.
Qed.

(** X23: An estimate given as text that starts with digits, of a value
    below 2^53, is sent as the number those digits denote; what follows
    the digits is ignored. *)
Theorem estimate_leading_digits (args : obj) ds rest :
  args !! "estimate" = Some (VStr (ds +:+ rest)) ->
  ds <> EmptyString ->
  all_chars is_digit ds = true ->
  match rest with
  | EmptyString => True
  | String c _ => is_digit c = false
  end ->
  digits_value ds < two53 ->
  processedArgs args !! "estimate" = Some (VNum (Int (digits_value ds))).
Proof.
  intros He Hne Hds Hrest Hsmall.
  rewrite processedArgs_estimate_lookup, (field_Some _ _ _ He).
  cbn [js_String]. rewrite (parseInt10_leading_digits ds rest Hne Hds Hrest).
  pose proof (digits_value_nonneg ds Hds).
  by rewrite to_number_small by lia.
Qed.

(** ** The number of an identifier, further *)

(** X24: [extractIssueNumber] answers [null], or an integer that is not
    negative, or [Infinity] (when the digits run beyond the largest
    Number): never [NaN], never a negative number, never a fraction. *)
Theorem extractIssueNumber_range q :
  extractIssueNumber q = VNull
  \/ (exists n, 0 <= n
                /\ (extractIssueNumber q = VNum (Int n)
                    \/ extractIssueNumber q = VNum (Big n)))
  \/ extractIssueNumber q = VNum (Inf false).
Proof.
  destruct (match_identifier q) as [digits|] eqn:Hm.
  - apply match_identifier_inv in Hm as [letters Hshape].
    rewrite (extractIssueNumber_shape q letters digits Hshape).
    destruct Hshape as (_ & _ & _ & _ & Hdig).
    pose proof (digits_value_nonneg digits Hdig) as Hpos.
    pose proof (to_number_cases (digits_value digits)) as Hcases.
    destruct (to_number (digits_value digits)) as [|y|y|b|]; try done.
    + destruct Hcases as [-> _]. right; left. eauto.
    + destruct Hcases as (_ & Hsign & _). right; left. exists y.
      split; [lia|by right].
    + destruct Hcases as [-> _]. right; right.
      by rewrite (proj2 (Z.ltb_ge _ _) Hpos).
  - left. unfold extractIssueNumber. by rewrite Hm.
Qed.

(** X25: The number of an identifier is read back from the identifier:
    capital letters, a hyphen and the numeral of [n], below 2^53, give
    [n]. *)
Theorem extractIssueNumber_decimal letters n :
  letters <> EmptyString ->
  all_chars is_upper letters = true ->
  0 <= n < two53 ->
  extractIssueNumber (letters +:+ "-" +:+ decimal n) = VNum (Int n).
Proof.
  intros Hne Hup Hn.
  assert (decimal n <> "" /\ all_chars is_digit (decimal n) = true
          /\ digits_value (decimal n) = n) as (Hd & Hall & Hval).
  { destruct n as [|p|p]; [by repeat split| |lia].
    destruct (string_of_to_uint p) as (H1 & H2 & H3 & -> & _). by repeat split. }
  rewrite (extractIssueNumber_shape _ letters (decimal n)).
  - rewrite Hval. by rewrite to_number_small by lia.
  - by repeat split.
Qed.

(** ** The client, further *)

(** Case analysis on every test and every step that may throw. *)
Ltac step_cases :=
  unfold mbind, M_bind, lift, throw, mret, M_ret;
  repeat match goal with
         | |- context [if ?c then _ else _] =>
             match type of c with bool => destruct c end
         | |- context [match ?x with _ => _ end] =>
             lazymatch x with
             | context [match _ with _ => _ end] => fail
             | _ => destruct x
             end
         end.

Section ClientFurther.

Variable rawRequest : list request -> request -> res value.

Lemma execute_eq doc variables log :
  execute rawRequest doc variables log
  = (match rawRequest log (Request doc variables) with
     | inl (ErrorObj message) =>
         inl (ErrorObj ("GraphQL operation failed: " +:+ message))
     | inl (Thrown v) => inl (Thrown v)
     | inr data => inr data
     end, log ++ [Request doc variables]).
Proof.
  unfold execute, try_catch, send.
  by destruct (rawRequest log _) as [[m|v]|data].
Qed.

(** X13: [execute] hands one request to the transport and neither retries nor
    reshapes: the log grows by that request whatever the answer, the data
    of an answer is returned as it is, and a rejection that is not an
    [Error] is thrown again as it is. *)
Theorem execute_passes_through doc variables log :
  snd (execute rawRequest doc variables log) = log ++ [Request doc variables]
  /\ (forall data,
        rawRequest log (Request doc variables) = inr data ->
        fst (execute rawRequest doc variables log) = inr data)
  /\ (forall v,
        rawRequest log (Request doc variables) = inl (Thrown v) ->
        fst (execute rawRequest doc variables log) = inl (Thrown v)).
Proof.
  rewrite execute_eq. cbn [fst snd]. repeat split; by intros ? ->.
Qed.

(** X14: On full success [createProjectWithIssues] returns the two records
    the backend answered with, side by side, after exactly two requests. *)
Theorem createProjectWithIssues_success
    projectInput issues projectResult projectCreate issuesResult issueBatchCreate :
  let step1 := Request CREATE_PROJECT (VObj {[ "input" := projectInput ]}) in
  let id := prop (prop projectCreate "project") "id" in
  let payloads := (fun issue : obj => VObj (<["projectId" := id]> issue)) <$> issues in
  let step2 :=
    Request CREATE_BATCH_ISSUES
      (VObj {[ "input" := VObj {[ "issues" := VArr payloads ]} ]}) in
  rawRequest [] step1 = inr projectResult ->
  get projectResult "projectCreate" = inr projectCreate ->
  truthy (get_opt projectCreate "success") = true ->
  nullish (prop projectCreate "project") = false ->
  rawRequest [step1] step2 = inr issuesResult ->
  get issuesResult "issueBatchCreate" = inr issueBatchCreate ->
  truthy (get_opt issueBatchCreate "success") = true ->
  run (createProjectWithIssues rawRequest projectInput issues)
  = (inr (VObj (<["projectCreate" := projectCreate]>
               (<["issueBatchCreate" := issueBatchCreate]> ∅))),
     [step1; step2]).
Proof.
  intros step1 id payloads step2 Hreq Hpc Hs Hproj Hreq2 Hibc Hs2.
  pose proof (truthy_get_opt_nullish _ _ Hs) as Hnn.
  pose proof (truthy_get_opt_nullish _ _ Hs2) as Hnn2.
  unfold get_opt in Hs, Hs2. rewrite Hnn in Hs. rewrite Hnn2 in Hs2.
  unfold run, createProjectWithIssues, createProject.
  rewrite (bind_inr _ _ _ _ _ (execute_inr _ _ _ _ _ Hreq)).
  rewrite (bind_lift_inr _ _ _ _ Hpc).
  rewrite (bind_lift_inr _ _ _ _ (get_inr _ "success" Hnn)).
  rewrite Hs. cbn [negb app].
  rewrite (bind_lift_inr _ _ _ _
             (issuesWithProject_inr _ _ issues Hpc Hnn Hproj)).
  fold id.
  assert (VObj <$> (with_projectId id <$> issues) = payloads) as ->.
  { unfold payloads, with_projectId. by rewrite <- list_fmap_compose. }
  unfold createBatchIssues.
  rewrite (bind_inr _ _ _ _ _ (execute_inr _ _ _ _ _ Hreq2)).
  rewrite (bind_lift_inr _ _ _ _ Hibc).
  rewrite (bind_lift_inr _ _ _ _ (get_inr _ "success" Hnn2)).
  rewrite Hs2. reflexivity.
Qed.

(** X15: With no issue to create the project's id is never read: the batch
    request goes out with an empty list even when the answer to the project
    step carries no project. *)
Theorem createProjectWithIssues_no_issues
    projectInput projectResult projectCreate :
  let step1 := Request CREATE_PROJECT (VObj {[ "input" := projectInput ]}) in
  rawRequest [] step1 = inr projectResult ->
  get projectResult "projectCreate" = inr projectCreate ->
  truthy (get_opt projectCreate "success") = true ->
  snd (run (createProjectWithIssues rawRequest projectInput []))
  = [step1;
     Request CREATE_BATCH_ISSUES
       (VObj {[ "input" := VObj {[ "issues" := VArr [] ]} ]})].
Proof.
  intros step1 Hreq Hpc Hs.
  pose proof (truthy_get_opt_nullish _ _ Hs) as Hnn.
  unfold get_opt in Hs. rewrite Hnn in Hs.
  unfold run, createProjectWithIssues, createProject.
  rewrite (bind_inr _ _ _ _ _ (execute_inr _ _ _ _ _ Hreq)).
  rewrite (bind_lift_inr _ _ _ _ Hpc).
  rewrite (bind_lift_inr _ _ _ _ (get_inr _ "success" Hnn)).
  rewrite Hs. cbn [negb app issuesWithProject].
  unfold createBatchIssues.
  unfold mbind at 1, M_bind at 1. unfold lift at 1, mret at 1, res_ret at 1.
  cbn [fmap list_fmap].
  unfold mbind at 1, M_bind at 1. rewrite execute_eq.
  step_cases; reflexivity.
Qed.

(** X16: When the project step reports success without a project and there
    are issues to create, reading the project's id throws a [TypeError]:
    the composite fails after the project request alone, and no issue is
    sent. *)
Theorem createProjectWithIssues_project_missing
    projectInput issue issues projectResult projectCreate :
  let step1 := Request CREATE_PROJECT (VObj {[ "input" := projectInput ]}) in
  rawRequest [] step1 = inr projectResult ->
  get projectResult "projectCreate" = inr projectCreate ->
  truthy (get_opt projectCreate "success") = true ->
  nullish (prop projectCreate "project") = true ->
  run (createProjectWithIssues rawRequest projectInput (issue :: issues))
  = (inl (TypeError_read (prop projectCreate "project") "id"), [step1]).
Proof.
  intros step1 Hreq Hpc Hs Hproj.
  pose proof (truthy_get_opt_nullish _ _ Hs) as Hnn.
  unfold get_opt in Hs. rewrite Hnn in Hs.
  unfold run, createProjectWithIssues, createProject.
  rewrite (bind_inr _ _ _ _ _ (execute_inr _ _ _ _ _ Hreq)).
  rewrite (bind_lift_inr _ _ _ _ Hpc).
  rewrite (bind_lift_inr _ _ _ _ (get_inr _ "success" Hnn)).
  rewrite Hs. cbn [negb app].
  apply bind_lift_inl. cbn [issuesWithProject]. rewrite Hpc.
  cbn [mbind res_bind]. rewrite (get_inr _ "project" Hnn).
  cbn [mbind res_bind]. by rewrite (get_inl _ "id" Hproj).
Qed.

Lemma issuesWithProject_length projectResult issues withProject :
  issuesWithProject projectResult issues = inr withProject ->
  List.length withProject = List.length issues.
Proof.
  revert withProject. induction issues as [|issue rest IH];
    intros withProject; cbn [issuesWithProject].
  - by intros [= <-].
  - unfold mbind, res_bind, mret, res_ret.
    destruct (get projectResult _) as [?|pc]; [done|].
    destruct (get pc _) as [?|p]; [done|].
    destruct (get p _) as [?|i]; [done|].
    destruct (issuesWithProject projectResult rest) as [?|rest']; [done|].
    intros [= <-]. cbn [List.length]. f_equal. by apply IH.
Qed.

(** X17: Whatever the transport answers, [createProjectWithIssues] sends the
    project request first and at most one more request, which is then the
    batch creation with one payload per issue. *)
Theorem createProjectWithIssues_requests projectInput issues :
  let step1 := Request CREATE_PROJECT (VObj {[ "input" := projectInput ]}) in
  let sent := snd (run (createProjectWithIssues rawRequest projectInput issues)) in
  sent = [step1]
  \/ exists payloads,
      List.length payloads = List.length issues
      /\ sent = [step1;
                 Request CREATE_BATCH_ISSUES
                   (VObj {[ "input" := VObj {[ "issues" := VArr payloads ]} ]})].
Proof.
  intros step1 sent. remember sent as s eqn:Hs. subst sent. revert Hs.
  unfold run, createProjectWithIssues, createProject.
  unfold mbind at 1, M_bind at 1. rewrite execute_eq. fold step1.
  destruct (rawRequest [] step1) as [[m|v]|projectResult];
    [intros ->; by left..|]. cbn [app].
  unfold mbind at 1, M_bind at 1, lift at 1.
  destruct (get projectResult "projectCreate") as [e|projectCreate];
    [intros ->; by left|].
  unfold mbind at 1, M_bind at 1, lift at 1.
  destruct (get projectCreate "success") as [e|success]; [intros ->; by left|].
  destruct (negb (truthy success)); [intros ->; by left|].
  unfold mbind at 1, M_bind at 1, lift at 1.
  destruct (issuesWithProject projectResult issues) as [e|withProject] eqn:Hwith;
    [intros ->; by left|].
  unfold createBatchIssues.
  unfold mbind at 1, M_bind at 1. rewrite execute_eq.
  step_cases; intros ->; right; exists (VObj <$> withProject);
    (split; [rewrite length_fmap; by eapply issuesWithProject_length
            |reflexivity]).
Qed.

End ClientFurther.

(** ** The handlers, further *)

Lemma try_catch_throw_inl {A} (m : M A) (h : thrown -> thrown) log e :
  fst (try_catch m (fun e => throw (h e)) log) = inl e ->
  exists e0, e = h e0.
Proof.
  rewrite try_catch_throw. cbn [fst].
  destruct (fst (m log)) as [e0|a]; [|done]. intros [= <-]. by exists e0.
Qed.

Section HandlersFurther.

Variable rawRequest : list request -> request -> res value.
Variable verifyAuth : res unit.
Variable validateRequiredParams : obj -> list string -> res unit.
Variable createResponse : string -> value.
Variable createJsonResponse : value -> value.
Variable handleError : thrown -> string -> thrown.

(** Case analysis on every step of a handler; a request is looked at
    once what it sends is known. *)
Ltac handler_cases :=
  unfold createIssue, createIssues, updateIssue, updateIssues, searchIssues,
    deleteIssue, deleteIssues;
  unfold mbind, M_bind, lift, throw, mret, M_ret;
  repeat first
    [ rewrite execute_eq
    | match goal with
      | |- context [if ?c then _ else _] =>
          match type of c with bool => destruct c end
      | |- context [match ?x with _ => _ end] =>
          lazymatch x with
          | context [execute] => fail
          | context [match _ with _ => _ end] => fail
          | _ => destruct x
          end
      end ].

(** X2: Without a session no handler sends anything: each raises what
    [handleError] makes of the session error, under its own action name. *)
Theorem handlers_unauthenticated e (args : obj) :
  verifyAuth = inl e ->
  run (handleCreateIssue rawRequest verifyAuth validateRequiredParams
     createResponse handleError args) = (inl (handleError e "create issue"), [])
  /\ run (handleCreateIssues rawRequest verifyAuth validateRequiredParams
     createResponse handleError args) = (inl (handleError e "create issues"), [])
  /\ run (handleBulkUpdateIssues rawRequest verifyAuth
     validateRequiredParams createResponse handleError args) = (inl (handleError e "update issues"), [])
  /\ run (handleSearchIssues rawRequest verifyAuth createJsonResponse
     handleError args) = (inl (handleError e "search issues"), [])
  /\ run (handleDeleteIssue rawRequest verifyAuth validateRequiredParams
     createResponse handleError args) = (inl (handleError e "delete issue"), [])
  /\ run (handleDeleteIssues rawRequest verifyAuth validateRequiredParams
     createResponse handleError args) = (inl (handleError e "delete issues"), []).
Proof.
  intros Hauth.
  repeat split;
    unfold run, handleCreateIssue, handleCreateIssues, handleBulkUpdateIssues,
      handleSearchIssues, handleDeleteIssue, handleDeleteIssues;
    rewrite try_catch_throw; by rewrite (bind_lift_inl _ _ _ _ Hauth).
Qed.

(** X3: When the check of required parameters fails, the handler sends
    nothing and raises what [handleError] makes of that failure. *)
Theorem handlers_missing_parameter e (args : obj) :
  verifyAuth = inr () ->
  (validateRequiredParams args ["title"; "description"; "teamId"] = inl e ->
   run (handleCreateIssue rawRequest verifyAuth validateRequiredParams
     createResponse handleError args) = (inl (handleError e "create issue"), []))
  /\ (validateRequiredParams args ["issues"] = inl e ->
      run (handleCreateIssues rawRequest verifyAuth validateRequiredParams
     createResponse handleError args) = (inl (handleError e "create issues"), []))
  /\ (validateRequiredParams args ["issueIds"; "update"] = inl e ->
      run (handleBulkUpdateIssues rawRequest verifyAuth
     validateRequiredParams createResponse handleError args)
      = (inl (handleError e "update issues"), []))
  /\ (validateRequiredParams args ["id"] = inl e ->
      run (handleDeleteIssue rawRequest verifyAuth validateRequiredParams
     createResponse handleError args) = (inl (handleError e "delete issue"), []))
  /\ (validateRequiredParams args ["ids"] = inl e ->
      run (handleDeleteIssues rawRequest verifyAuth validateRequiredParams
     createResponse handleError args) = (inl (handleError e "delete issues"), [])).
Proof.
  intros Hauth.
  repeat split; intros Hval;
    unfold run, handleCreateIssue, handleCreateIssues, handleBulkUpdateIssues,
      handleDeleteIssue, handleDeleteIssues;
    rewrite try_catch_throw, (bind_lift_inr _ _ _ _ Hauth);
    by rewrite (bind_lift_inl _ _ _ _ Hval).
Qed.

(** X4: A list parameter that is not an array is refused before anything is
    sent, by the three handlers that take a list. *)
Theorem handlers_reject_non_array (args : obj) :
  verifyAuth = inr () ->
  (validateRequiredParams args ["issues"] = inr () ->
   isArray (field args "issues") = false ->
   run (handleCreateIssues rawRequest verifyAuth validateRequiredParams
     createResponse handleError args)
   = (inl (handleError (ErrorObj "Issues parameter must be an array")
             "create issues"), []))
  /\ (validateRequiredParams args ["issueIds"; "update"] = inr () ->
      isArray (field args "issueIds") = false ->
      run (handleBulkUpdateIssues rawRequest verifyAuth
     validateRequiredParams createResponse handleError args)
      = (inl (handleError (ErrorObj "IssueIds parameter must be an array")
                "update issues"), []))
  /\ (validateRequiredParams args ["ids"] = inr () ->
      isArray (field args "ids") = false ->
      run (handleDeleteIssues rawRequest verifyAuth validateRequiredParams
     createResponse handleError args)
      = (inl (handleError (ErrorObj "Ids parameter must be an array")
                "delete issues"), [])).
Proof.
  intros Hauth.
  repeat split; intros Hval Harr;
    unfold run, handleCreateIssues, handleBulkUpdateIssues, handleDeleteIssues;
    rewrite try_catch_throw, (bind_lift_inr _ _ _ _ Hauth),
      (bind_lift_inr _ _ _ _ Hval).
  - by rewrite Harr.
  - by destruct (field args "issueIds").
  - by destruct (field args "ids").
Qed.

(** X1: No handler sends more than one request, whatever its arguments and
    whatever the transport answers: a list of any length goes out in one
    batch request, never in one request per element. *)
Theorem handlers_at_most_one_request (args : obj) :
  (List.length (snd (run (handleCreateIssue rawRequest verifyAuth validateRequiredParams
     createResponse handleError args))) <= 1)%nat
  /\ (List.length (snd (run (handleCreateIssues rawRequest verifyAuth validateRequiredParams
     createResponse handleError args))) <= 1)%nat
  /\ (List.length (snd (run (handleBulkUpdateIssues rawRequest verifyAuth
     validateRequiredParams createResponse handleError args))) <= 1)%nat
  /\ (List.length (snd (run (handleSearchIssues rawRequest verifyAuth createJsonResponse
     handleError args))) <= 1)%nat
  /\ (List.length (snd (run (handleDeleteIssue rawRequest verifyAuth validateRequiredParams
     createResponse handleError args))) <= 1)%nat
  /\ (List.length (snd (run (handleDeleteIssues rawRequest verifyAuth validateRequiredParams
     createResponse handleError args))) <= 1)%nat.
Proof.
  repeat split;
    unfold run, handleCreateIssue, handleCreateIssues, handleBulkUpdateIssues,
      handleSearchIssues, handleDeleteIssue, handleDeleteIssues;
    rewrite try_catch_throw; cbn [snd]; handler_cases; cbn; lia.
Qed.

(** X5: Whatever a handler throws is what [handleError] made of the error
    it caught, under the handler's own action name. *)
Theorem handlers_raise_through_handleError (args : obj) e :
  (fst (run (handleCreateIssue rawRequest verifyAuth validateRequiredParams
     createResponse handleError args)) = inl e ->
   exists e0, e = handleError e0 "create issue")
  /\ (fst (run (handleCreateIssues rawRequest verifyAuth validateRequiredParams
     createResponse handleError args)) = inl e ->
      exists e0, e = handleError e0 "create issues")
  /\ (fst (run (handleBulkUpdateIssues rawRequest verifyAuth
     validateRequiredParams createResponse handleError args)) = inl e ->
      exists e0, e = handleError e0 "update issues")
  /\ (fst (run (handleSearchIssues rawRequest verifyAuth createJsonResponse
     handleError args)) = inl e ->
      exists e0, e = handleError e0 "search issues")
  /\ (fst (run (handleDeleteIssue rawRequest verifyAuth validateRequiredParams
     createResponse handleError args)) = inl e ->
      exists e0, e = handleError e0 "delete issue")
  /\ (fst (run (handleDeleteIssues rawRequest verifyAuth validateRequiredParams
     createResponse handleError args)) = inl e ->
      exists e0, e = handleError e0 "delete issues").
Proof.
  repeat split; intros H;
    exact (try_catch_throw_inl _ (fun e => handleError e _) [] e H).
Qed.

End HandlersFurther.

(** ** The handlers one by one *)

Section HandlerOutcomes.

Variable rawRequest : list request -> request -> res value.
Variable verifyAuth : res unit.
Variable validateRequiredParams : obj -> list string -> res unit.
Variable createResponse : string -> value.
Variable createJsonResponse : value -> value.
Variable handleError : thrown -> string -> thrown.

(** X6: [handleDeleteIssues] on a list of identifiers of any length: the one
    request sent is the batch deletion with the whole list.  A transport
    failure is raised with the message [execute] gave it; an answer decides
    by [issueDelete.success] between the failure "Failed to delete issues"
    and a text that gives the number of identifiers and lists them. *)
Theorem handleDeleteIssues_outcome (args : obj) ids :
  verifyAuth = inr () ->
  validateRequiredParams args ["ids"] = inr () ->
  field args "ids" = VArr ids ->
  let handled :=
    run (handleDeleteIssues rawRequest verifyAuth validateRequiredParams
           createResponse handleError args) in
  let rq := Request DELETE_ISSUES_MUTATION (VObj {[ "ids" := VArr ids ]}) in
  snd handled = [rq]
  /\ (forall m,
        rawRequest [] rq = inl (ErrorObj m) ->
        fst handled
        = inl (handleError (ErrorObj ("GraphQL operation failed: " +:+ m))
                 "delete issues"))
  /\ (forall data issueDelete,
        rawRequest [] rq = inr data ->
        get data "issueDelete" = inr issueDelete ->
        nullish issueDelete = false ->
        fst handled
        = if truthy (prop issueDelete "success")
          then inr (createResponse
                      ("Successfully deleted " +:+
                       decimal (Z.of_nat (List.length ids)) +:+
                       " issues: " +:+ js_join ", " ids))
          else inl (handleError (ErrorObj "Failed to delete issues")
                      "delete issues")).
Proof.
  intros Hauth Hval Hids handled rq. subst handled.
  unfold run, handleDeleteIssues. rewrite try_catch_throw.
  rewrite (bind_lift_inr _ _ _ _ Hauth), (bind_lift_inr _ _ _ _ Hval), Hids.
  cbn [fst snd]. unfold deleteIssues. fold rq. repeat split.
  - unfold mbind at 1, M_bind at 1. rewrite execute_eq. fold rq.
    step_cases; reflexivity.
  - intros m Hreq.
    by rewrite (bind_inl _ _ _ _ _ (execute_Error _ _ _ _ _ Hreq)).
  - intros data issueDelete Hreq Hget Hnn.
    rewrite (bind_inr _ _ _ _ _ (execute_inr _ _ _ _ _ Hreq)).
    rewrite (bind_lift_inr _ _ _ _ Hget).
    rewrite (bind_lift_inr _ _ _ _ (get_inr _ "success" Hnn)).
    by destruct (truthy _).
Qed.

(** X7: [handleDeleteIssue]: the one request sent is the single deletion of
    the identifier given, and [issueDelete.success] of the answer decides
    between the failure "Failed to delete issue" and a text naming the
    identifier. *)
Theorem handleDeleteIssue_outcome (args : obj) :
  verifyAuth = inr () ->
  validateRequiredParams args ["id"] = inr () ->
  let handled :=
    run (handleDeleteIssue rawRequest verifyAuth validateRequiredParams
           createResponse handleError args) in
  let rq := Request DELETE_ISSUE_MUTATION (VObj {[ "id" := field args "id" ]}) in
  snd handled = [rq]
  /\ (forall m,
        rawRequest [] rq = inl (ErrorObj m) ->
        fst handled
        = inl (handleError (ErrorObj ("GraphQL operation failed: " +:+ m))
                 "delete issue"))
  /\ (forall data issueDelete,
        rawRequest [] rq = inr data ->
        get data "issueDelete" = inr issueDelete ->
        nullish issueDelete = false ->
        fst handled
        = if truthy (prop issueDelete "success")
          then inr (createResponse
                      ("Successfully deleted issue " +:+
                       js_String (field args "id")))
          else inl (handleError (ErrorObj "Failed to delete issue")
                      "delete issue")).
Proof.
  intros Hauth Hval handled rq. subst handled.
  unfold run, handleDeleteIssue. rewrite try_catch_throw.
  rewrite (bind_lift_inr _ _ _ _ Hauth), (bind_lift_inr _ _ _ _ Hval).
  cbn [fst snd]. unfold deleteIssue. fold rq. repeat split.
  - unfold mbind at 1, M_bind at 1. rewrite execute_eq. fold rq.
    step_cases; reflexivity.
  - intros m Hreq.
    by rewrite (bind_inl _ _ _ _ _ (execute_Error _ _ _ _ _ Hreq)).
  - intros data issueDelete Hreq Hget Hnn.
    rewrite (bind_inr _ _ _ _ _ (execute_inr _ _ _ _ _ Hreq)).
    rewrite (bind_lift_inr _ _ _ _ Hget).
    rewrite (bind_lift_inr _ _ _ _ (get_inr _ "success" Hnn)).
    by destruct (truthy _).
Qed.

(** X8: [handleCreateIssues] on a list of issues of any length: the one
    request sent is the batch creation, and the issues go out exactly as
    they came in (estimate and priority are not processed here).  A false
    [issueBatchCreate.success] gives the failure "Failed to create issues";
    a true one with a list of created issues gives a text with their
    number and one entry per issue; a true one without a list makes the
    handler fail on reading its length. *)
Theorem handleCreateIssues_outcome (args : obj) issues :
  verifyAuth = inr () ->
  validateRequiredParams args ["issues"] = inr () ->
  field args "issues" = VArr issues ->
  let handled :=
    run (handleCreateIssues rawRequest verifyAuth validateRequiredParams
           createResponse handleError args) in
  let rq := Request CREATE_BATCH_ISSUES
              (VObj {[ "input" := VObj {[ "issues" := VArr issues ]} ]}) in
  snd handled = [rq]
  /\ forall data issueBatchCreate,
      rawRequest [] rq = inr data ->
      get data "issueBatchCreate" = inr issueBatchCreate ->
      nullish issueBatchCreate = false ->
      (truthy (prop issueBatchCreate "success") = false ->
       fst handled
       = inl (handleError (ErrorObj "Failed to create issues") "create issues"))
      /\ (forall created lines,
            truthy (prop issueBatchCreate "success") = true ->
            prop issueBatchCreate "issues" = VArr created ->
            issue_lines created = inr lines ->
            fst handled
            = inr (createResponse
                     ("Successfully created " +:+
                      decimal (Z.of_nat (List.length created)) +:+
                      " issues:" +:+ nl +:+ js_join nl (VStr <$> lines))))
      /\ (truthy (prop issueBatchCreate "success") = true ->
          nullish (prop issueBatchCreate "issues") = true ->
          fst handled
          = inl (handleError
                   (TypeError_read (prop issueBatchCreate "issues") "length")
                   "create issues")).
Proof.
  intros Hauth Hval Hissues handled rq. subst handled.
  unfold run, handleCreateIssues. rewrite try_catch_throw.
  rewrite (bind_lift_inr _ _ _ _ Hauth), (bind_lift_inr _ _ _ _ Hval), Hissues.
  cbn [isArray negb fst snd]. unfold createIssues. fold rq. split.
  - unfold mbind at 1, M_bind at 1. rewrite execute_eq. fold rq.
    step_cases; reflexivity.
  - intros data issueBatchCreate Hreq Hget Hnn.
    rewrite (bind_inr _ _ _ _ _ (execute_inr _ _ _ _ _ Hreq)).
    rewrite (bind_lift_inr _ _ _ _ Hget).
    rewrite (bind_lift_inr _ _ _ _ (get_inr _ "success" Hnn)).
    repeat split.
    + by intros ->.
    + intros created lines -> Hcreated Hlines. cbn [negb].
      rewrite (bind_lift_inr _ _ _ _ (get_inr _ "issues" Hnn)), Hcreated.
      rewrite (bind_lift_inr _ _ _ _ (get_inr (VArr created) "length" eq_refl)).
      by rewrite (bind_lift_inr _ _ _ _ Hlines).
    + intros -> Hnull. cbn [negb].
      rewrite (bind_lift_inr _ _ _ _ (get_inr _ "issues" Hnn)).
      by rewrite (bind_lift_inl _ _ _ _ (get_inl _ "length" Hnull)).
Qed.

(** X9: [handleCreateIssue] succeeds only when the answer carries both a
    true [success] and an issue: otherwise it raises "Failed to create
    issue".  On success the text gives the identifier, the title, the URL
    and the name of the project, or "None" when the issue has no project. *)
Theorem handleCreateIssue_outcome (args : obj) data issueCreate :
  verifyAuth = inr () ->
  validateRequiredParams args ["title"; "description"; "teamId"] = inr () ->
  rawRequest []
    (Request CREATE_ISSUE_MUTATION
       (VObj {[ "input" := VObj (processedArgs args) ]})) = inr data ->
  get data "issueCreate" = inr issueCreate ->
  nullish issueCreate = false ->
  let issue := prop issueCreate "issue" in
  fst (run (handleCreateIssue rawRequest verifyAuth validateRequiredParams
              createResponse handleError args))
  = if truthy (prop issueCreate "success") && truthy issue
    then inr (createResponse
                ("Successfully created issue" +:+ nl +:+
                 "Issue: " +:+ js_String (prop issue "identifier") +:+ nl +:+
                 "Title: " +:+ js_String (prop issue "title") +:+ nl +:+
                 "URL: " +:+ js_String (prop issue "url") +:+ nl +:+
                 "Project: " +:+
                 (if truthy (prop issue "project")
                  then js_String (prop (prop issue "project") "name")
                  else "None")))
    else inl (handleError (ErrorObj "Failed to create issue") "create issue").
Proof.
  intros Hauth Hval Hreq Hget Hnn issue.
  unfold run, handleCreateIssue. rewrite try_catch_throw.
  rewrite (bind_lift_inr _ _ _ _ Hauth), (bind_lift_inr _ _ _ _ Hval).
  cbn [fst snd]. unfold createIssue.
  rewrite (bind_inr _ _ _ _ _ (execute_inr _ _ _ _ _ Hreq)).
  rewrite (bind_lift_inr _ _ _ _ Hget).
  rewrite (bind_lift_inr _ _ _ _ (get_inr _ "success" Hnn)).
  destruct (truthy (prop issueCreate "success")); [|done]. cbn [negb andb].
  rewrite (bind_lift_inr _ _ _ _ (get_inr _ "issue" Hnn)). fold issue.
  destruct (truthy issue) eqn:Hissue; [|done]. cbn [negb].
  assert (nullish issue = false) as Hni by (by destruct issue).
  rewrite (bind_lift_inr _ _ _ _ (get_inr _ "identifier" Hni)).
  rewrite (bind_lift_inr _ _ _ _ (get_inr _ "title" Hni)).
  rewrite (bind_lift_inr _ _ _ _ (get_inr _ "url" Hni)).
  rewrite (bind_lift_inr _ _ _ _ (get_inr _ "project" Hni)).
  destruct (truthy (prop issue "project")) eqn:Hproject; [|done].
  assert (nullish (prop issue "project") = false) as Hnp
    by (by destruct (prop issue "project")).
  by rewrite (bind_lift_inr _ _ _ _ (get_inr _ "name" Hnp)).
Qed.

(** X10: [handleSearchIssues] forwards the page: the cursor goes out as it
    came in, the page size is the one given or 50 when none (or 0) was
    given, the order is the one given or "updatedAt"; what the backend
    answers comes back untouched inside the response. *)
Theorem handleSearchIssues_outcome (args f : obj) data :
  verifyAuth = inr () ->
  search_filter args = inr f ->
  let rq :=
    Request SEARCH_ISSUES_QUERY
      (VObj (<["filter" := VObj f]>
            (<["first" := if truthy (field args "first") then field args "first"
                          else VNum (Int 50)]>
            (<["after" := field args "after"]>
            (<["orderBy" := if truthy (field args "orderBy")
                            then field args "orderBy"
                            else VStr "updatedAt"]> ∅))))) in
  rawRequest [] rq = inr data ->
  run (handleSearchIssues rawRequest verifyAuth createJsonResponse
         handleError args)
  = (inr (createJsonResponse data), [rq]).
Proof.
  intros Hauth Hf rq Hreq.
  unfold run, handleSearchIssues. rewrite try_catch_throw.
  rewrite (bind_lift_inr _ _ _ _ Hauth), (bind_lift_inr _ _ _ _ Hf).
  unfold searchIssues. rewrite !or_default_js_or by done.
  unfold js_or. fold rq.
  by rewrite (bind_inr _ _ _ _ _ (execute_inr _ _ _ _ _ Hreq)).
Qed.

(** X11: A query that is truthy and not a string (a number, say) makes the
    search fail on [query.match] before anything is sent. *)
Theorem handleSearchIssues_bad_query (args : obj) :
  verifyAuth = inr () ->
  truthy (field args "query") = true ->
  (forall q, field args "query" <> VStr q) ->
  run (handleSearchIssues rawRequest verifyAuth createJsonResponse
         handleError args)
  = (inl (handleError (TypeError_call "query.match") "search issues"), []).
Proof.
  intros Hauth Htruthy Hnot.
  unfold run, handleSearchIssues. rewrite try_catch_throw.
  rewrite (bind_lift_inr _ _ _ _ Hauth).
  assert (search_filter args = inl (TypeError_call "query.match")) as Hf.
  { unfold search_filter. rewrite Htruthy.
    destruct (field args "query") as [| | | |q| |]; try done.
    by destruct (Hnot q). }
  by rewrite (bind_lift_inl _ _ _ _ Hf).
Qed.

End HandlerOutcomes.

(** X12: The entries of the assembled filter, each exactly: the disjunction
    for a query that is a non-empty string; the project comparator for a
    truthy [filter.project.id.eq]; the team, assignee and state lists as
    they were given whenever they are truthy, an empty array included. *)
Theorem search_filter_entries (args f : obj) :
  search_filter args = inr f ->
  let eq := get_opt (get_opt (get_opt (field args "filter") "project") "id") "eq" in
  f !! "or"
  = match field args "query" with
    | VStr q =>
        if String.eqb q "" then None
        else Some (VArr [VObj {[ "title" :=
                                  VObj {[ "containsIgnoreCase" := VStr q ]} ]};
                         VObj {[ "number" :=
                                  VObj {[ "eq" := extractIssueNumber q ]} ]}])
    | _ => None
    end
  /\ f !! "project"
     = (if truthy eq then Some (VObj {[ "id" := VObj {[ "eq" := eq ]} ]})
        else None)
  /\ f !! "team"
     = (if truthy (field args "teamIds")
        then Some (VObj {[ "id" := VObj {[ "in" := field args "teamIds" ]} ]})
        else None)
  /\ f !! "assignee"
     = (if truthy (field args "assigneeIds")
        then Some (VObj {[ "id" := VObj {[ "in" := field args "assigneeIds" ]} ]})
        else None)
  /\ f !! "state"
     = (if truthy (field args "states")
        then Some (VObj {[ "name" := VObj {[ "in" := field args "states" ]} ]})
        else None)
  /\ (forall l, field args "teamIds" = VArr l ->
        f !! "team" = Some (VObj {[ "id" := VObj {[ "in" := VArr l ]} ]})).
Proof.
  intros Hf eq. unfold search_filter in Hf.
  match type of Hf with context [mbind ?k _] => set (rest := k) in Hf end.
  assert (exists f0 : obj,
            rest f0 = inr f
            /\ (forall k, k <> "or" -> f0 !! k = None)
            /\ f0 !! "or"
               = match field args "query" with
                 | VStr q =>
                     if String.eqb q "" then None
                     else Some (VArr [VObj {[ "title" :=
                                  VObj {[ "containsIgnoreCase" := VStr q ]} ]};
                         VObj {[ "number" :=
                                  VObj {[ "eq" := extractIssueNumber q ]} ]}])
                 | _ => None
                 end) as (f0 & Hrest & Hother & Hor).
  { revert Hf. unfold mbind, res_bind, mret, res_ret.
    destruct (field args "query") as [| |[]|[|z|z|b|b s e]|q|l|o];
      cbn [truthy];
      try discriminate;
      try (intros Hf; exists ∅; split; [exact Hf|];
           split; [intros k _; apply lookup_empty|apply lookup_empty]).
    - destruct (negb (z =? 0)); [discriminate|].
      intros Hf; exists ∅; split; [exact Hf|].
      split; [intros k _; apply lookup_empty|apply lookup_empty].
    - destruct (String.eqb q ""); cbn [negb].
      + intros Hf; exists ∅; split; [exact Hf|].
        split; [intros k _; apply lookup_empty|apply lookup_empty].
      + intros Hf. eexists. split; [exact Hf|].
        split; [intros k Hk; by rewrite lookup_insert_ne
               |by rewrite lookup_insert_eq]. }
  subst rest. cbv beta zeta in Hrest. unfold mret, res_ret in Hrest.
  injection Hrest as <-. fold eq.
  assert (f0 !! "team" = None /\ f0 !! "project" = None
          /\ f0 !! "assignee" = None /\ f0 !! "state" = None)
    as (Ht & Hp & Ha & Hs) by (repeat split; by apply Hother).
  repeat split.
  - by rewrite !lookup_if_insert_ne.
  - rewrite !lookup_if_insert_ne by done.
    by rewrite lookup_if_insert_eq, Hp.
  - rewrite !lookup_if_insert_ne by done.
    by rewrite lookup_if_insert_eq, lookup_if_insert_ne, Ht.
  - rewrite !lookup_if_insert_ne by done.
    by rewrite lookup_if_insert_eq, !lookup_if_insert_ne, Ha.
  - rewrite !lookup_if_insert_ne by done.
    by rewrite lookup_if_insert_eq, !lookup_if_insert_ne, Hs.
  - intros l Hl. rewrite !lookup_if_insert_ne by done.
    by rewrite lookup_if_insert_eq, Hl.
Qed.

(** ** The further theorems at concrete inputs *)

Lemma estimate_integer_kept_witness :
  processedArgs (issue_args_with "estimate" (VNum (Int (-5)))) !! "estimate"
  = Some (VNum (Int (-5))).
Proof.
  exact (estimate_integer_kept (issue_args_with "estimate" (VNum (Int (-5))))
           (-5) ltac:(vm_compute; reflexivity) ltac:(vm_compute; reflexivity)).
Defined.

Lemma priority_integer_clamped_witness :
  processedArgs (issue_args_with "priority" (VNum (Int 3))) !! "priority"
  = Some (VNum (Int 3)).
Proof.
  exact (priority_integer_clamped (issue_args_with "priority" (VNum (Int 3)))
           3 ltac:(vm_compute; reflexivity) ltac:(vm_compute; reflexivity)).
Defined.

Lemma estimate_leading_digits_witness :
  processedArgs (issue_args_with "estimate" (VStr "3 points")) !! "estimate"
  = Some (VNum (Int 3)).
Proof.
  exact (estimate_leading_digits
           (issue_args_with "estimate" (VStr "3 points")) "3" " points"
           ltac:(vm_compute; reflexivity) ltac:(discriminate)
           ltac:(vm_compute; reflexivity) ltac:(vm_compute; reflexivity)
           ltac:(vm_compute; reflexivity)).
Defined.

(** An estimate of "3 points" and a priority of 9: a second pass leaves
    the 3 and the 0 of the first. *)
Lemma processedArgs_idempotent_witness :
  processedArgs (processedArgs twice_args) = processedArgs twice_args.
Proof.
  exact (processedArgs_idempotent twice_args
           ltac:(vm_compute; reflexivity) ltac:(vm_compute; reflexivity)
           ltac:(intros n H; vm_compute in H; injection H as <-; by exists 3)).
Defined.

Lemma extractIssueNumber_decimal_witness :
  extractIssueNumber ("ENG" +:+ "-" +:+ decimal 42) = VNum (Int 42).
Proof.
  exact (extractIssueNumber_decimal "ENG" 42 ltac:(discriminate)
           ltac:(vm_compute; reflexivity)
           ltac:(split; vm_compute; [discriminate|reflexivity])).
Defined.

Lemma search_filter_entries_witness :
  no_team_filter !! "team"
  = Some (VObj {[ "id" := VObj {[ "in" := VArr [] ]} ]}).
Proof.
  destruct (search_filter_entries no_team_args no_team_filter
              ltac:(vm_compute; reflexivity)) as (_ & _ & _ & _ & _ & Hteam).
  exact (Hteam [] ltac:(vm_compute; reflexivity)).
Defined.

Lemma createProjectWithIssues_success_witness :
  run (createProjectWithIssues
         (scripted [inr project_created; inr issues_created])
         (VObj {[ "name" := VStr "New Project" ]}) [issue_args])
  = (inr (VObj (<["projectCreate" := prop project_created "projectCreate"]>
               (<["issueBatchCreate" := prop issues_created "issueBatchCreate"]>
                  ∅))),
     [Request CREATE_PROJECT
        (VObj {[ "input" := VObj {[ "name" := VStr "New Project" ]} ]});
      Request CREATE_BATCH_ISSUES
        (VObj {[ "input" :=
                   VObj {[ "issues" :=
                             VArr [VObj (<["projectId" := VStr "project-1"]>
                                           issue_args)] ]} ]})]).
Proof.
  exact (createProjectWithIssues_success
           (scripted [inr project_created; inr issues_created])
           (VObj {[ "name" := VStr "New Project" ]}) [issue_args]
           project_created (prop project_created "projectCreate")
           issues_created (prop issues_created "issueBatchCreate")
           ltac:(vm_compute; reflexivity) ltac:(vm_compute; reflexivity)
           ltac:(vm_compute; reflexivity) ltac:(vm_compute; reflexivity)
           ltac:(vm_compute; reflexivity) ltac:(vm_compute; reflexivity)
           ltac:(vm_compute; reflexivity)).
Defined.

Lemma createProjectWithIssues_no_issues_witness :
  snd (run (createProjectWithIssues
              (scripted [inr project_created_without_project])
              (VObj {[ "name" := VStr "New Project" ]}) []))
  = [Request CREATE_PROJECT
       (VObj {[ "input" := VObj {[ "name" := VStr "New Project" ]} ]});
     Request CREATE_BATCH_ISSUES
       (VObj {[ "input" := VObj {[ "issues" := VArr [] ]} ]})].
Proof.
  exact (createProjectWithIssues_no_issues
           (scripted [inr project_created_without_project])
           (VObj {[ "name" := VStr "New Project" ]})
           project_created_without_project
           (prop project_created_without_project "projectCreate")
           ltac:(vm_compute; reflexivity) ltac:(vm_compute; reflexivity)
           ltac:(vm_compute; reflexivity)).
Defined.

Lemma createProjectWithIssues_project_missing_witness :
  run (createProjectWithIssues
         (scripted [inr project_created_without_project])
         (VObj {[ "name" := VStr "New Project" ]}) [issue_args])
  = (inl (ErrorObj "Cannot read properties of null (reading 'id')"),
     [Request CREATE_PROJECT
        (VObj {[ "input" := VObj {[ "name" := VStr "New Project" ]} ]})]).
Proof.
  exact (createProjectWithIssues_project_missing
           (scripted [inr project_created_without_project])
           (VObj {[ "name" := VStr "New Project" ]}) issue_args []
           project_created_without_project
           (prop project_created_without_project "projectCreate")
           ltac:(vm_compute; reflexivity) ltac:(vm_compute; reflexivity)
           ltac:(vm_compute; reflexivity) ltac:(vm_compute; reflexivity)).
Defined.

Lemma handlers_unauthenticated_witness :
  run (handleDeleteIssues (scripted []) not_authenticated
         validateRequiredParams_spec bare_text reraise
         (delete_args (VArr [VStr "issue-1"])))
  = (inl (ErrorObj "Authentication required"), []).
Proof.
  destruct (handlers_unauthenticated (scripted []) not_authenticated
              validateRequiredParams_spec bare_text bare_data reraise
              (ErrorObj "Authentication required")
              (delete_args (VArr [VStr "issue-1"]))
              ltac:(reflexivity)) as (_ & _ & _ & _ & _ & H).
  exact H.
Defined.

Lemma handlers_missing_parameter_witness :
  run (handleDeleteIssue (scripted []) (inr ()) validateRequiredParams_spec
         bare_text reraise no_args)
  = (inl (ErrorObj "Missing required parameter: id"), []).
Proof.
  destruct (handlers_missing_parameter (scripted []) (inr ())
              validateRequiredParams_spec bare_text reraise
              (ErrorObj "Missing required parameter: id") no_args
              ltac:(reflexivity)) as (_ & _ & _ & H & _).
  exact (H ltac:(vm_compute; reflexivity)).
Defined.

Lemma handlers_reject_non_array_witness :
  run (handleDeleteIssues (scripted []) (inr ()) validateRequiredParams_spec
         bare_text reraise (delete_args (VStr "issue-1")))
  = (inl (ErrorObj "Ids parameter must be an array"), []).
Proof.
  destruct (handlers_reject_non_array (scripted []) (inr ())
              validateRequiredParams_spec bare_text reraise
              (delete_args (VStr "issue-1"))
              ltac:(reflexivity)) as (_ & _ & H).
  exact (H ltac:(vm_compute; reflexivity) ltac:(vm_compute; reflexivity)).
Defined.

Lemma handleDeleteIssues_outcome_witness :
  snd (run (handleDeleteIssues (scripted [inr issues_deleted]) (inr ())
              validateRequiredParams_spec bare_text reraise
              (delete_args (VArr [VStr "issue-1"; VStr "issue-2"]))))
  = [Request DELETE_ISSUES_MUTATION
       (VObj {[ "ids" := VArr [VStr "issue-1"; VStr "issue-2"] ]})]
  /\ fst (run (handleDeleteIssues (scripted [inr issues_deleted]) (inr ())
                 validateRequiredParams_spec bare_text reraise
                 (delete_args (VArr [VStr "issue-1"; VStr "issue-2"]))))
     = inr (VStr "Successfully deleted 2 issues: issue-1, issue-2").
Proof.
  destruct (handleDeleteIssues_outcome (scripted [inr issues_deleted]) (inr ())
              validateRequiredParams_spec bare_text reraise
              (delete_args (VArr [VStr "issue-1"; VStr "issue-2"]))
              [VStr "issue-1"; VStr "issue-2"]
              ltac:(reflexivity) ltac:(vm_compute; reflexivity)
              ltac:(vm_compute; reflexivity)) as (Hlog & _ & Hres).
  split; [exact Hlog|].
  exact (Hres issues_deleted (prop issues_deleted "issueDelete")
           ltac:(vm_compute; reflexivity) ltac:(vm_compute; reflexivity)
           ltac:(vm_compute; reflexivity)).
Defined.

Lemma handleDeleteIssue_outcome_witness :
  snd (run (handleDeleteIssue (scripted [inr issues_deleted]) (inr ())
              validateRequiredParams_spec bare_text reraise delete_one_args))
  = [Request DELETE_ISSUE_MUTATION (VObj {[ "id" := VStr "issue-1" ]})]
  /\ fst (run (handleDeleteIssue (scripted [inr issues_deleted]) (inr ())
                 validateRequiredParams_spec bare_text reraise delete_one_args))
     = inr (VStr "Successfully deleted issue issue-1").
Proof.
  destruct (handleDeleteIssue_outcome (scripted [inr issues_deleted]) (inr ())
              validateRequiredParams_spec bare_text reraise delete_one_args
              ltac:(reflexivity) ltac:(vm_compute; reflexivity))
    as (Hlog & _ & Hres).
  split; [exact Hlog|].
  exact (Hres issues_deleted (prop issues_deleted "issueDelete")
           ltac:(vm_compute; reflexivity) ltac:(vm_compute; reflexivity)
           ltac:(vm_compute; reflexivity)).
Defined.

Lemma handleCreateIssues_outcome_witness :
  snd (run (handleCreateIssues (scripted [inr issues_created]) (inr ())
              validateRequiredParams_spec bare_text reraise create_issues_args))
  = [Request CREATE_BATCH_ISSUES
       (VObj {[ "input" := VObj {[ "issues" := VArr [VObj issue_args] ]} ]})]
  /\ fst (run (handleCreateIssues (scripted [inr issues_created]) (inr ())
                 validateRequiredParams_spec bare_text reraise
                 create_issues_args))
     = inr (VStr ("Successfully created 1 issues:" +:+ nl +:+
                  "- TEST-1: Issue 1" +:+ nl +:+
                  "  URL: https://linear.app/test/issue/TEST-1")).
Proof.
  destruct (handleCreateIssues_outcome (scripted [inr issues_created]) (inr ())
              validateRequiredParams_spec bare_text reraise create_issues_args
              [VObj issue_args]
              ltac:(reflexivity) ltac:(vm_compute; reflexivity)
              ltac:(vm_compute; reflexivity)) as (Hlog & Hres).
  split; [exact Hlog|].
  destruct (Hres issues_created (prop issues_created "issueBatchCreate")
              ltac:(vm_compute; reflexivity) ltac:(vm_compute; reflexivity)
              ltac:(vm_compute; reflexivity)) as (_ & Hok & _).
  exact (Hok [issue_1]
           ["- TEST-1: Issue 1" +:+ nl +:+
            "  URL: https://linear.app/test/issue/TEST-1"]
           ltac:(vm_compute; reflexivity) ltac:(vm_compute; reflexivity)
           ltac:(vm_compute; reflexivity)).
Defined.

Lemma handleCreateIssue_outcome_witness :
  fst (run (handleCreateIssue (scripted [inr issue_created]) (inr ())
              validateRequiredParams_spec bare_text reraise issue_args))
  = inr (VStr ("Successfully created issue" +:+ nl +:+
               "Issue: TEST-1" +:+ nl +:+
               "Title: Issue 1" +:+ nl +:+
               "URL: https://linear.app/test/issue/TEST-1" +:+ nl +:+
               "Project: None")).
Proof.
  exact (handleCreateIssue_outcome (scripted [inr issue_created]) (inr ())
           validateRequiredParams_spec bare_text reraise issue_args
           issue_created (prop issue_created "issueCreate")
           ltac:(reflexivity) ltac:(vm_compute; reflexivity)
           ltac:(vm_compute; reflexivity) ltac:(vm_compute; reflexivity)
           ltac:(vm_compute; reflexivity)).
Defined.

Lemma handleSearchIssues_outcome_witness :
  run (handleSearchIssues (scripted [inr search_answer]) (inr ()) bare_data
         reraise next_page_args)
  = (inr search_answer,
     [Request SEARCH_ISSUES_QUERY
        (VObj (<["filter" := VObj ∅]>
              (<["first" := VNum (Int 50)]>
              (<["after" := VStr "cursor123"]>
              (<["orderBy" := VStr "updatedAt"]> ∅)))))]).
Proof.
  exact (handleSearchIssues_outcome (scripted [inr search_answer]) (inr ())
           bare_data reraise next_page_args no_args search_answer
           ltac:(reflexivity) ltac:(vm_compute; reflexivity)
           ltac:(vm_compute; reflexivity)).
Defined.

Lemma handleSearchIssues_bad_query_witness :
  run (handleSearchIssues (scripted []) (inr ()) bare_data reraise
         numeric_query_args)
  = (inl (ErrorObj "query.match is not a function"), []).
Proof.
  exact (handleSearchIssues_bad_query (scripted []) (inr ()) bare_data reraise
           numeric_query_args ltac:(reflexivity) ltac:(vm_compute; reflexivity)
           ltac:(intros q; vm_compute; discriminate)).
Defined.
